(** * Item store: a shallow embedding of [main.py]

    The service keeps one collection of items in [data.json] and serves
    six handlers over it.  Every handler reads the whole file, works on
    the decoded list and, for writes, dumps the whole list back.

    - Part I follows the source file top to bottom: the builtins the
      handlers call ([int], [str], [max]), the models [Item] and
      [ItemUpdate], the world the process runs in and the monad of
      handler code, [read_data] and [write_data], the six handlers, and
      what the framework makes of them at the routes.
    - Part II names what the properties speak about.
    - Part III proves facts about the builtins and the helpers.
    - Part IV states and proves the properties of the service.
    - Part V proves further properties of the helpers and the handlers.

    Modelling conventions.  A Python [str] is a [string] whose
    characters are the code points below 256.  A Python [int] is a [Z]
    (no bound).  The interpreter's configurable guards, the limit on
    the length of decimal conversions and the recursion limit, and the
    exhaustion of memory are not modelled.  A Python [float] is a
    binary64 [float].  [None] is [None].  One request runs at a time.  The file
    is seen through what [open], [json.load] and the construction of
    the items make of it: absent, unreadable, not UTF-8, not JSON, JSON
    that is not an array of objects, or an array of item records.  A
    write is taken by the medium, refused, or broken off.  Request
    bodies arrive already validated by the framework; a response is the
    JSON rendering of what the handler returned, which is not validated
    again. *)

From Stdlib Require Import ZArith Lia String Ascii List DecimalString DecimalZ.
From Stdlib Require Import Floats.PrimFloat.
From stdpp Require Import base option list strings.

Local Open Scope string_scope.
Local Open Scope Z_scope.

(** * Part I. The program *)

(** ** Python builtins used by the handlers *)

Module Py.

(** Characters that [int()] skips around a literal: tab, line feed,
    vertical tab, form feed, carriage return, space, and, beyond
    ASCII, NEL and the no-break space. *)
Definition isspace (c : ascii) : bool :=
  let n := N_of_ascii c in
  ((9 <=? n) && (n <=? 13) || (n =? 32) || (n =? 133) || (n =? 160))%N.

Definition digit_value (c : ascii) : option Z :=
  let n := Z.of_N (N_of_ascii c) in
  if (48 <=? n) && (n <=? 57) then Some (n - 48) else None.

Definition is_underscore (c : ascii) : bool := Ascii.eqb c "_".

Fixpoint skip_space (s : string) : string :=
  match s with
  | String c r => if isspace c then skip_space r else s
  | EmptyString => s
  end.

(** The digit loop of the integer parser, entered after a first digit:
    digits accumulate in base ten, a single underscore may separate two
    digits, and the loop stops at the first other character.
    [after_us] records that the previous character was an underscore. *)
Fixpoint scan_digits (acc : Z) (after_us : bool) (s : string)
  : option (Z * string) :=
  match s with
  | EmptyString => if after_us then None else Some (acc, s)
  | String c r =>
      match digit_value c with
      | Some d => scan_digits (acc * 10 + d) false r
      | None =>
          if is_underscore c
          then (if after_us then None else scan_digits acc true r)
          else (if after_us then None else Some (acc, s))
      end
  end.

Definition read_sign (s : string) : bool * string :=
  match s with
  | String "+" r => (false, r)
  | String "-" r => (true, r)
  | _ => (false, s)
  end.

(** [int(s)] for a string [s]: [None] stands for [ValueError]. *)
Definition int_of_str (s : string) : option Z :=
  let (neg, body) := read_sign (skip_space s) in
  match body with
  | EmptyString => None
  | String c r =>
      match digit_value c with
      | None => None
      | Some d =>
          match scan_digits d false r with
          | None => None
          | Some (n, rest) =>
              match skip_space rest with
              | EmptyString => Some (if neg then - n else n)
              | String _ _ => None
              end
          end
      end
  end.

(** [str(n)] for an integer [n]. *)
Definition str (n : Z) : string := NilZero.string_of_int (Z.to_int n).

(** [max(l, default=d)]: the default is used for the empty list only. *)
Definition max (l : list Z) (default : Z) : Z :=
  match l with
  | [] => default
  | x :: r => fold_left Z.max r x
  end.

End Py.

(** ** The models *)

(** An [Item] object as it lives in memory.  The class declares [name],
    [price] and [quantity] required, but a Python object can still hold
    [None] there (the copy made by [patch_item] is not validated), so
    every attribute is an option.  The same record stands for the dict
    [item.dict()] and for one object of the JSON array in the file. *)
Record Item := mkItem {
  id : option string;
  name : option string;
  description : option string;
  price : option float;
  quantity : option Z
}.

(** A field of a request body: left out, or supplied (possibly as
    [null]).  This is the set of fields the model remembers as set. *)
Inductive field (A : Type) :=
| Unset
| Supplied (v : option A).
Arguments Unset {A}.
Arguments Supplied {A} v.

Record ItemUpdate := mkItemUpdate {
  upd_name : field string;
  upd_description : field string;
  upd_price : field float;
  upd_quantity : field Z
}.

(** What the validation of the class [Item] checks on a dict whose
    values already have the declared types: the required fields. *)
Definition present {A} (o : option A) : bool :=
  match o with Some _ => true | None => false end.

Definition validated (d : Item) : bool :=
  present (name d) && present (price d) && present (quantity d).

(** [existing.copy(update=...)] with the dict of the supplied fields of
    an [ItemUpdate]: a supplied field replaces the attribute, whatever
    its value; nothing is validated. *)
Definition override {A} (u : field A) (old : option A) : option A :=
  match u with
  | Unset => old
  | Supplied v => v
  end.

Definition copy_update (existing : Item) (updated_item_data : ItemUpdate) : Item :=
  {| id := id existing;
     name := override (upd_name updated_item_data) (name existing);
     description := override (upd_description updated_item_data) (description existing);
     price := override (upd_price updated_item_data) (price existing);
     quantity := override (upd_quantity updated_item_data) (quantity existing) |}.

(** [item.id = v] *)
Definition set_id (item : Item) (v : option string) : Item :=
  {| id := v; name := name item; description := description item;
     price := price item; quantity := quantity item |}.

(** ** The world of the process *)

(** The backing file as [read_data] can find it.

    - [Missing]: [os.path.exists] is false.
    - [Unreadable]: [open] or the read fails with an [OSError].
    - [Malformed]: the text is not JSON.
    - [Records]: a JSON array of objects, which is what [write_data]
      produces.  An object is written as the record of the values the
      construction of an [Item] finds in it; an object the construction
      rejects lacks, as a record, a required value.  A JSON value whose
      iteration yields nothing (the empty object, the empty string)
      reads as the empty array.
    - [Undecodable]: the bytes are not UTF-8, the encoding the file is
      opened with.
    - [Misshapen]: JSON of another shape: the iteration yields the
      objects [l] and then a value that is no object (a number in the
      array, a key of an object, a character of a string), or the
      document cannot be iterated at all (a number, a Boolean, [null];
      [l] is then empty). *)
Inductive file_state :=
| Missing
| Unreadable (e : string)
| Malformed (e : string)
| Records (l : list Item)
| Undecodable (e : string)
| Misshapen (l : list Item).

(** How the medium answers a write: it takes it, or [open] fails and
    the file stays as it was, or the write breaks off and leaves a
    truncated document, which no longer decodes. *)
Inductive medium :=
| Writable
| ReadOnly (e : string)
| Full (e : string) (decode_error : string).

Record world := mkWorld {
  file : file_state;
  disk : medium;
  stdout : list string
}.

Inductive exn :=
| HTTPException (status_code : Z) (detail : string)
| ValueError
| TypeError
| ValidationError
| IOError (e : string)
| JSONDecodeError (e : string)
| UnicodeDecodeError (e : string).

Inductive outcome (A : Type) :=
| Return (a : A)
| Raise (e : exn).
Arguments Return {A} a.
Arguments Raise {A} e.

(** Handler code: a computation over the world that returns or raises. *)
Definition py (A : Type) : Type := world -> outcome A * world.

Definition ret {A} (a : A) : py A := fun w => (Return a, w).
Definition raise {A} (e : exn) : py A := fun w => (Raise e, w).
Definition bind {A B} (m : py A) (k : A -> py B) : py B :=
  fun w =>
    match m w with
    | (Return a, w') => k a w'
    | (Raise e, w') => (Raise e, w')
    end.

(** [try m except ...]: the handler picks the exceptions it catches. *)
Definition try_except {A} (m : py A) (handler : exn -> option (py A)) : py A :=
  fun w =>
    match m w with
    | (Return a, w') => (Return a, w')
    | (Raise e, w') =>
        match handler e with
        | Some h => h w'
        | None => (Raise e, w')
        end
    end.

Notation "x <- m ;; k" := (bind m (fun x => k))
  (at level 100, m at next level, right associativity).
Notation "m ;;; k" := (bind m (fun _ => k))
  (at level 100, right associativity).

Definition print (line : string) : py unit :=
  fun w => (Return tt, {| file := file w; disk := disk w; stdout := (stdout w ++ [line])%list |}).

(** [[f(x) for x in l]]: left to right, the first exception ends it. *)
Fixpoint for_each {A B} (f : A -> py B) (l : list A) : py (list B) :=
  match l with
  | [] => ret []
  | x :: r => y <- f x ;; ys <- for_each f r ;; ret (y :: ys)
  end.

(** ** Storage helpers *)

Definition DATA_FILE : string := "data.json".

(** [os.path.exists(DATA_FILE)] *)
Definition path_exists : py bool :=
  fun w => (Return (match file w with Missing => false | _ => true end), w).

(** What [json.load] returns, as the comprehension of [read_data] meets
    it: the dicts the iteration yields, and whether the iteration then
    ends or comes to a value that is no dict. *)
Inductive document :=
| Array (dicts : list Item)
| NotArray (dicts : list Item).

(** [json.load] on the file opened as UTF-8 text.  Decoding the bytes
    fails with a [UnicodeDecodeError], a [ValueError] that is neither an
    [OSError] nor a [JSONDecodeError]. *)
Definition json_load : py document :=
  fun w =>
    match file w with
    | Missing => (Raise (IOError "No such file or directory"), w)
    | Unreadable e => (Raise (IOError e), w)
    | Malformed e => (Raise (JSONDecodeError e), w)
    | Records l => (Return (Array l), w)
    | Undecodable e => (Raise (UnicodeDecodeError e), w)
    | Misshapen l => (Return (NotArray l), w)
    end.

(** The constructor call of [Item] on one decoded dict. *)
Definition Item_of_dict (d : Item) : py Item :=
  if validated d then ret d else raise ValidationError.

(** The comprehension over the decoded document: the items are
    constructed in order; the double star on a value that is no dict is
    a [TypeError]. *)
Definition items_of (doc : document) : py (list Item) :=
  match doc with
  | Array dicts => for_each Item_of_dict dicts
  | NotArray dicts => for_each Item_of_dict dicts ;;; raise TypeError
  end.

(** The [try] covers the test for the file, the load and the
    construction of the items; the [except] names two classes, so the
    validation error of [Item], the type error of the comprehension and
    the decoding error of the text are not among the exceptions
    caught. *)
Definition read_data : py (list Item) :=
  try_except
    (found <- path_exists ;;
     if found
     then (doc <- json_load ;; items_of doc)
     else ret [])
    (fun e =>
       match e with
       | JSONDecodeError m | IOError m =>
           Some (print ("Error reading " ++ DATA_FILE ++ ": " ++ m) ;;; ret [])
       | _ => None
       end).

(** [json.dump] of the dicts into the file opened for writing. *)
Definition json_dump (docs : list Item) : py unit :=
  fun w =>
    match disk w with
    | Writable => (Return tt, {| file := Records docs; disk := disk w; stdout := stdout w |})
    | ReadOnly e => (Raise (IOError e), w)
    | Full e d => (Raise (IOError e), {| file := Malformed d; disk := disk w; stdout := stdout w |})
    end.

(** The dump of [[item.dict() for item in data]]; an I/O error is
    printed and the function returns as after a write that worked. *)
Definition write_data (data : list Item) : py unit :=
  try_except
    (json_dump data)
    (fun e =>
       match e with
       | IOError m => Some (print ("Error writing to " ++ DATA_FILE ++ ": " ++ m))
       | _ => None
       end).

(** ** The handlers *)

Definition not_found {A} : py A := raise (HTTPException 404 "Item not found").

(** [int(existing_item.id)]: [None] is a type error, a string that is
    not an integer literal a value error. *)
Definition int_of_id (existing_item : Item) : py Z :=
  match id existing_item with
  | None => raise TypeError
  | Some s =>
      match Py.int_of_str s with
      | Some n => ret n
      | None => raise ValueError
      end
  end.

Definition get_items : py (list Item) := read_data.

(** [next((item for item in data if item.id == item_id), None)], then
    404 when there is none: the first item with the id, in list order.
    An id that is [None] equals no string. *)
Definition get_item (item_id : string) : py Item :=
  data <- read_data ;;
  match list_find (fun item => id item = Some item_id) data with
  | Some (_, item) => ret item
  | None => not_found
  end.

(** The ids are converted one by one before anything else happens; the
    payload object gets the new id, is appended, and is what the
    handler returns. *)
Definition create_item (item : Item) : py Item :=
  data <- read_data ;;
  ids <- for_each int_of_id data ;;
  let item := set_id item (Some (Py.str (Py.max ids 0 + 1))) in
  let data := (data ++ [item])%list in
  write_data data ;;;
  ret item.

(** The loop over [enumerate(data)] returns at the first item with the
    id.  [data[idx]] is the payload object itself, so setting its id
    and returning [data[idx]] both concern the payload. *)
Definition update_item (item_id : string) (item : Item) : py Item :=
  data <- read_data ;;
  match list_find (fun existing_item => id existing_item = Some item_id) data with
  | Some (idx, _) =>
      let item := set_id item (Some item_id) in
      let data := <[idx := item]> data in
      write_data data ;;;
      ret item
  | None => not_found
  end.

(** As [update_item], with a copy of the existing item that takes the
    supplied fields of the body. *)
Definition patch_item (item_id : string) (item_update : ItemUpdate) : py Item :=
  data <- read_data ;;
  match list_find (fun existing_item => id existing_item = Some item_id) data with
  | Some (idx, existing_item) =>
      let updated_item := copy_update existing_item item_update in
      let data := <[idx := updated_item]> data in
      write_data data ;;;
      ret updated_item
  | None => not_found
  end.

(** The list without the items that have the id; 404 when that removed
    nothing, else the shorter list is written and [None] returned. *)
Definition delete_item (item_id : string) : py unit :=
  data <- read_data ;;
  let new_data := filter (fun item => id item <> Some item_id) data in
  if (length new_data =? length data)%nat
  then not_found
  else write_data new_data ;;; ret tt.

(** ** The routes

    What the framework makes of a handler: the value returned is
    rendered as JSON by the response model and sent with the route's
    status code, an [HTTPException] is sent with its own status code,
    and any other exception becomes an internal server error.  An
    [Item] object the handler returns is not validated again, so an
    item with [None] in a required attribute is sent with [null] there.
    A body is written as the record of its JSON values, [null] as
    [None]. *)

Inductive body :=
| ItemBody (item : Item)
| ListBody (items : list Item)
| NoBody
| DetailBody (detail : string)
| InternalServerError.

Record response := mkResponse {
  status : Z;
  content : body
}.

(** The JSON rendering of a float attribute: JSON has no infinities and
    no NaN, and the framework sends [null] for them. *)
Definition json_float (x : option float) : option float :=
  match x with
  | Some v => if PrimFloat.is_finite v then Some v else None
  | None => None
  end.

(** The JSON object sent for an item. *)
Definition json_of_Item (item : Item) : Item :=
  {| id := id item; name := name item; description := description item;
     price := json_float (price item); quantity := quantity item |}.

Definition respond {A} (status_code : Z) (response_model : A -> body)
    (handler : py A) : world -> response * world :=
  fun w =>
    match handler w with
    | (Return a, w') =>
        ({| status := status_code; content := response_model a |}, w')
    | (Raise (HTTPException code detail), w') =>
        ({| status := code; content := DetailBody detail |}, w')
    | (Raise _, w') =>
        ({| status := 500; content := InternalServerError |}, w')
    end.

Definition as_Item (item : Item) : body := ItemBody (json_of_Item item).

Definition as_List_Item (items : list Item) : body :=
  ListBody (map json_of_Item items).

Definition no_content (_ : unit) : body := NoBody.

Definition GET_items := respond 200 as_List_Item get_items.
Definition GET_item (item_id : string) := respond 200 as_Item (get_item item_id).
Definition POST_items (item : Item) := respond 200 as_Item (create_item item).
Definition PUT_item (item_id : string) (item : Item) :=
  respond 200 as_Item (update_item item_id item).
Definition PATCH_item (item_id : string) (item_update : ItemUpdate) :=
  respond 200 as_Item (patch_item item_id item_update).
Definition DELETE_item (item_id : string) := respond 204 no_content (delete_item item_id).

(** * Part II. The vocabulary of the properties *)

(** ** Worlds *)

(** The world after one more line on standard output. *)
Definition logged (line : string) (w : world) : world :=
  {| file := file w; disk := disk w; stdout := (stdout w ++ [line])%list |}.

(** The world after the file has been replaced by the dump of [data]. *)
Definition stored (data : list Item) (w : world) : world :=
  {| file := Records data; disk := disk w; stdout := stdout w |}.

Definition read_error (e : string) : string := "Error reading data.json: " ++ e.
Definition write_error (e : string) : string := "Error writing to data.json: " ++ e.

(** ** Ids *)

(** The integer an id stands for, when it stands for one. *)
Definition id_number (existing_item : Item) : option Z :=
  match id existing_item with
  | Some s => Py.int_of_str s
  | None => None
  end.

(** The integers of all ids, when every id stands for one. *)
Definition id_numbers (data : list Item) : option (list Z) := mapM id_number data.

(** [existing], at position [idx], is the first item whose id is
    [item_id]. *)
Definition first_match (data : list Item) (item_id : string) (idx : nat)
    (existing : Item) : Prop :=
  data !! idx = Some existing /\ id existing = Some item_id /\
  forall j y, data !! j = Some y -> (j < idx)%nat -> id y <> Some item_id.

(** No item has the id [item_id]. *)
Definition no_match (data : list Item) (item_id : string) : Prop :=
  Forall (fun item => id item <> Some item_id) data.

(** [m] is the largest element of [l], or the default when [l] is
    empty. *)
Definition max_or_default (l : list Z) (default m : Z) : Prop :=
  (l = [] /\ m = default) \/ (m ∈ l /\ Forall (fun n => n <= m) l).

(** ** Base-10 integer literals *)

(** A run of blanks. *)
Inductive blank : string -> Prop :=
| blank_nil : blank EmptyString
| blank_cons c r : Py.isspace c = true -> blank r -> blank (String c r).

(** Groups of decimal digits, two groups separated by one underscore. *)
Inductive digit_groups : string -> Prop :=
| last_digit c d :
    Py.digit_value c = Some d -> digit_groups (String c EmptyString)
| next_digit c d r :
    Py.digit_value c = Some d -> digit_groups r -> digit_groups (String c r)
| next_group c d r :
    Py.digit_value c = Some d -> digit_groups r ->
    digit_groups (String c (String "_" r)).

(** A base-10 integer literal: blanks, an optional sign, groups of
    digits, blanks. *)
Inductive int_literal : string -> Prop :=
| literal pre sign digits post :
    blank pre -> sign = "" \/ sign = "+" \/ sign = "-" ->
    digit_groups digits -> blank post ->
    int_literal (pre ++ sign ++ digits ++ post).

(** An id that is a string holding a base-10 integer literal. *)
Definition numeric_id (v : option string) : Prop :=
  exists s, v = Some s /\ int_literal s.

(** The value of a run of decimal digits read after [acc]. *)
Fixpoint uint_value (u : Decimal.uint) (acc : Z) : Z :=
  match u with
  | Decimal.Nil => acc
  | Decimal.D0 l => uint_value l (acc * 10 + 0)
  | Decimal.D1 l => uint_value l (acc * 10 + 1)
  | Decimal.D2 l => uint_value l (acc * 10 + 2)
  | Decimal.D3 l => uint_value l (acc * 10 + 3)
  | Decimal.D4 l => uint_value l (acc * 10 + 4)
  | Decimal.D5 l => uint_value l (acc * 10 + 5)
  | Decimal.D6 l => uint_value l (acc * 10 + 6)
  | Decimal.D7 l => uint_value l (acc * 10 + 7)
  | Decimal.D8 l => uint_value l (acc * 10 + 8)
  | Decimal.D9 l => uint_value l (acc * 10 + 9)
  end.

(** The end of [int_of_str], after the digit loop. *)
Definition finish (neg : bool) (scanned : option (Z * string)) : option Z :=
  match scanned with
  | None => None
  | Some (n, rest) =>
      match Py.skip_space rest with
      | EmptyString => Some (if neg then - n else n)
      | String _ _ => None
      end
  end.

(** ** Decimal strings *)

(** The ten digits in order, and the place of a character in a string,
    counted from [i]. *)
Definition digits : string := "0123456789".

Fixpoint place (c : ascii) (s : string) (i : Z) : option Z :=
  match s with
  | EmptyString => None
  | String d r => if Ascii.eqb c d then Some i else place c r (i + 1)
  end.

(** The digit a character stands for: its place among the digits. *)
Definition digit_of (c : ascii) : option Z := place c digits 0.

(** The number a run of digits stands for, the most significant digit
    first, read after [acc]; [None] when a character is not a digit. *)
Fixpoint numeral_value (acc : Z) (s : string) : option Z :=
  match s with
  | EmptyString => Some acc
  | String c r =>
      match digit_of c with
      | Some d => numeral_value (acc * 10 + d) r
      | None => None
      end
  end.

(** [s] is the decimal numeral of the natural number [n]: a non-empty
    run of digits that stands for [n] and has no leading zero, the
    numeral of zero apart. *)
Definition numeral (n : Z) (s : string) : Prop :=
  s <> EmptyString
  /\ numeral_value 0 s = Some n
  /\ forall r, s = String "0" r -> r = EmptyString.

(** [s] is the decimal string of the integer [n]: its numeral, or for a
    negative number a minus sign and the numeral of [- n]. *)
Definition decimal_string (n : Z) (s : string) : Prop :=
  (0 <= n /\ numeral n s)
  \/ (n < 0 /\ exists r, s = String "-" r /\ numeral (- n) r).

(** A float attribute that JSON can carry as a number. *)
Definition finite (x : option float) : Prop := json_float x = x.

(** ** Request bodies *)

(** The body [{}]. *)
Definition no_fields : ItemUpdate :=
  {| upd_name := Unset; upd_description := Unset;
     upd_price := Unset; upd_quantity := Unset |}.

(** The body [{"quantity": q}]. *)
Definition only_quantity (q : option Z) : ItemUpdate :=
  {| upd_name := Unset; upd_description := Unset;
     upd_price := Unset; upd_quantity := Supplied q |}.

(** ** Outcomes and the world *)

(** The outcome of [m] is the same in every world. *)
Definition world_blind {A} (m : py A) : Prop :=
  forall w w', fst (m w) = fst (m w').

(** The body supplies [null] for a field the class [Item] requires. *)
Definition nulls_required (item_update : ItemUpdate) : bool :=
  match upd_name item_update, upd_price item_update, upd_quantity item_update with
  | Supplied None, _, _ => true
  | _, Supplied None, _ => true
  | _, _, Supplied None => true
  | _, _, _ => false
  end.

(** The ids of a collection, in order. *)
Definition ids_of (data : list Item) : list (option string) := id <$> data.

(** The ids are pairwise different and each reads as an integer. *)
Definition tidy (data : list Item) : Prop :=
  NoDup (ids_of data) /\ is_Some (id_numbers data).

(** The file, where it holds a collection, holds a tidy one. *)
Definition file_tidy (w : world) : Prop :=
  match file w with
  | Records docs => tidy docs
  | _ => True
  end.

(** ** Sample worlds *)

Module Scenario.

Definition fresh : world := {| file := Missing; disk := Writable; stdout := [] |}.

Definition widget : Item :=
  {| id := None; name := Some "Widget"; description := None;
     price := Some 9.5%float; quantity := Some 3 |}.

Definition widget1 : Item := set_id widget (Some "1").

Definition after_post : world := snd (POST_items widget fresh).
Definition after_delete : world := snd (DELETE_item "1" after_post).

(** A payload that names an id of its own. *)
Definition gadget : Item :=
  {| id := Some "seven"; name := Some "Gadget"; description := Some "spare";
     price := Some 2.5%float; quantity := Some 7 |}.

Definition widget3 : Item := set_id widget (Some "3").
Definition gadget10 : Item := set_id gadget (Some "10").

(** A collection with the ids 3 and 10. *)
Definition shelf : list Item := [widget3; gadget10].
Definition stocked : world :=
  {| file := Records shelf; disk := Writable; stdout := [] |}.

(** A collection with an id that is a word. *)
Definition odd_shelf : list Item := [widget3; set_id gadget (Some "abc")].
Definition jumbled : world :=
  {| file := Records odd_shelf; disk := Writable; stdout := [] |}.

(** The collection with the ids 3 and 10 on a medium that refuses
    writes. *)
Definition locked : world :=
  {| file := Records shelf; disk := ReadOnly "Read-only file system"; stdout := [] |}.

(** The collection with the ids 3 and 10 on a medium where writes
    break off. *)
Definition crowded : world :=
  {| file := Records shelf;
     disk := Full "No space left on device" "Expecting value";
     stdout := [] |}.

(** The body [{"name": null}], and the world the patch of the item 10
    with it leaves behind. *)
Definition null_name : ItemUpdate :=
  {| upd_name := Supplied None; upd_description := Unset;
     upd_price := Unset; upd_quantity := Unset |}.
Definition nameless10 : Item :=
  {| id := Some "10"; name := None; description := Some "spare";
     price := Some 2.5%float; quantity := Some 7 |}.
Definition after_null_patch : world := snd (PATCH_item "10" null_name stocked).

(** A file that is not JSON. *)
Definition garbled : world :=
  {| file := Malformed "Expecting value"; disk := Writable; stdout := [] |}.

(** A file whose bytes are not UTF-8. *)
Definition binary : world :=
  {| file := Undecodable "invalid start byte"; disk := Writable; stdout := [] |}.

(** A file that holds the JSON number 5. *)
Definition scalar : world :=
  {| file := Misshapen []; disk := Writable; stdout := [] |}.

(** A payload whose price is beyond the floats, as [1e999] parses, and
    the object sent for it under the id 11. *)
Definition gem : Item :=
  {| id := None; name := Some "Gem"; description := None;
     price := Some infinity; quantity := Some 1 |}.
Definition gem11_sent : Item :=
  {| id := Some "11"; name := Some "Gem"; description := None;
     price := None; quantity := Some 1 |}.

End Scenario.

(** ** Unfolding the helpers *)

Ltac run :=
  unfold read_data, write_data, try_except, bind, path_exists, json_load,
    items_of, json_dump, print, ret, raise, not_found.

(** * Part III. Proofs *)

(** ** The builtins on examples *)

Example int_plain : Py.int_of_str "42" = Some 42.
Proof. reflexivity. Qed.
Example int_padded : Py.int_of_str (String "009" " -1_000 ") = Some (-1000).
Proof. reflexivity. Qed.
Example int_leading_zeros : Py.int_of_str "00012" = Some 12.
Proof. reflexivity. Qed.
Example int_empty : Py.int_of_str "" = None.
Proof. reflexivity. Qed.
Example int_sign_gap : Py.int_of_str "- 1" = None.
Proof. reflexivity. Qed.
Example int_double_underscore : Py.int_of_str "1__0" = None.
Proof. reflexivity. Qed.
Example int_trailing_underscore : Py.int_of_str "1_" = None.
Proof. reflexivity. Qed.
Example int_leading_underscore : Py.int_of_str "-_1" = None.
Proof. reflexivity. Qed.
Example int_inner_space : Py.int_of_str "1 2" = None.
Proof. reflexivity. Qed.
Example int_word : Py.int_of_str "abc" = None.
Proof. reflexivity. Qed.
Example str_minus_four : Py.str (-4) = "-4".
Proof. reflexivity. Qed.
Example max_negative : Py.max [-5; -7] 0 = -5.
Proof. reflexivity. Qed.
Example max_empty : Py.max [] 0 = 0.
Proof. reflexivity. Qed.

(** ** The service on examples *)

Example post_widget :
  fst (POST_items Scenario.widget Scenario.fresh)
  = {| status := 200; content := ItemBody Scenario.widget1 |}.
Proof. reflexivity. Qed.

Example stored_widget : file Scenario.after_post = Records [Scenario.widget1].
Proof. reflexivity. Qed.

Example get_widget :
  fst (GET_item "1" Scenario.after_post)
  = {| status := 200; content := ItemBody Scenario.widget1 |}.
Proof. reflexivity. Qed.

Example delete_widget :
  fst (DELETE_item "1" Scenario.after_post) = {| status := 204; content := NoBody |}.
Proof. reflexivity. Qed.

Example get_deleted :
  fst (GET_item "1" Scenario.after_delete)
  = {| status := 404; content := DetailBody "Item not found" |}.
Proof. reflexivity. Qed.

Example three_posts :
  let w1 := snd (POST_items Scenario.widget Scenario.fresh) in
  let w2 := snd (POST_items Scenario.widget w1) in
  let w3 := snd (POST_items Scenario.widget w2) in
  file w3 = Records [set_id Scenario.widget (Some "1");
                     set_id Scenario.widget (Some "2");
                     set_id Scenario.widget (Some "3")].
Proof. reflexivity. Qed.

(** A negative id is a number like any other: the maximum is taken over
    the ids alone, zero only stands in for the empty list. *)
Example post_after_negative :
  let w := {| file := Records [set_id Scenario.widget (Some "-5")];
              disk := Writable; stdout := [] |} in
  fst (create_item Scenario.widget w) = Return (set_id Scenario.widget (Some "-4")).
Proof. reflexivity. Qed.

Example post_with_word_id :
  POST_items Scenario.gadget Scenario.jumbled
  = ({| status := 500; content := InternalServerError |}, Scenario.jumbled).
Proof. reflexivity. Qed.

(** A file that is not JSON reads as the empty collection, and the
    next create starts again from the id 1. *)
Example post_on_garbled_file :
  fst (POST_items Scenario.widget Scenario.garbled)
  = {| status := 200; content := ItemBody Scenario.widget1 |}
  /\ file (snd (POST_items Scenario.widget Scenario.garbled))
     = Records [Scenario.widget1]
  /\ stdout (snd (POST_items Scenario.widget Scenario.garbled))
     = ["Error reading data.json: Expecting value"].
Proof. repeat split. Qed.

(** The [except] of [read_data] names the I/O and the JSON decoding
    errors only.  After a patch that sets the name of an item to [null]
    the file is a well-formed array; reading it raises the validation
    error of the model class, and listing the items answers 500. *)
Example read_after_null_patch :
  file Scenario.after_null_patch = Records [Scenario.widget3; Scenario.nameless10]
  /\ read_data Scenario.after_null_patch
     = (Raise ValidationError, Scenario.after_null_patch)
  /\ GET_items Scenario.after_null_patch
     = ({| status := 500; content := InternalServerError |}, Scenario.after_null_patch).
Proof. repeat split. Qed.

(** The copy a patch makes is validated neither when it is made nor
    when it is sent: a patch that sets the name to [null] answers 200
    with the item without its name. *)
Example patch_null_name :
  fst (PATCH_item "10" Scenario.null_name Scenario.stocked)
  = {| status := 200; content := ItemBody Scenario.nameless10 |}.
Proof. reflexivity. Qed.

(** A price beyond the floats is stored as it is and sent as [null]. *)
Example post_infinite_price :
  fst (POST_items Scenario.gem Scenario.stocked)
  = {| status := 200; content := ItemBody Scenario.gem11_sent |}
  /\ file (snd (POST_items Scenario.gem Scenario.stocked))
     = Records (Scenario.shelf ++ [set_id Scenario.gem (Some "11")]).
Proof. repeat split. Qed.

(** A file that is not UTF-8 is outside what [read_data] catches: no
    route answers anything but 500, and nothing is printed or
    written. *)
Example post_on_binary_file :
  POST_items Scenario.widget Scenario.binary
  = ({| status := 500; content := InternalServerError |}, Scenario.binary).
Proof. reflexivity. Qed.

(** ** Facts about the builtins *)

Module PyFacts.

Lemma scan_digits_string_of_uint (u : Decimal.uint) (acc : Z) :
  Py.scan_digits acc false (NilEmpty.string_of_uint u)
  = Some (uint_value u acc, EmptyString).
Proof.
  revert acc. induction u; intros acc; simpl; auto.
Qed.

Lemma uint_value_pos (u : Decimal.uint) (p : positive) :
  uint_value u (Z.pos p) = Z.pos (Pos.of_uint_acc u p).
Proof.
  revert p.
  induction u; intros p; cbn [uint_value Pos.of_uint_acc]; auto;
    rewrite <- IHu; f_equal; lia.
Qed.

Lemma uint_value_zero (u : Decimal.uint) :
  uint_value u 0 = Z.of_N (Pos.of_uint u).
Proof.
  induction u; cbn [uint_value Pos.of_uint]; auto;
    change (0 * 10 + 0) with 0; auto;
    match goal with
    | |- uint_value _ ?a = _ =>
        let k := eval compute in a in
        change a with k; rewrite uint_value_pos; reflexivity
    end.
Qed.

Lemma digit_not_space c d : Py.digit_value c = Some d -> Py.isspace c = false.
Proof.
  destruct c as [[] [] [] [] [] [] [] []]; vm_compute; congruence.
Qed.

Lemma read_sign_digit c r d :
  Py.digit_value c = Some d -> Py.read_sign (String c r) = (false, String c r).
Proof.
  intros H.
  destruct c as [[] [] [] [] [] [] [] []]; try reflexivity;
    vm_compute in H; discriminate.
Qed.

Lemma int_of_str_unsigned c r d :
  Py.digit_value c = Some d ->
  Py.int_of_str (String c r) = finish false (Py.scan_digits d false r).
Proof.
  intros H. unfold Py.int_of_str. cbn [Py.skip_space].
  rewrite (digit_not_space _ _ H), (read_sign_digit _ _ _ H), H.
  reflexivity.
Qed.

Lemma int_of_str_minus c r d :
  Py.digit_value c = Some d ->
  Py.int_of_str (String "-" (String c r)) = finish true (Py.scan_digits d false r).
Proof.
  intros H. unfold Py.int_of_str. cbn [Py.skip_space].
  change (Py.isspace "-") with false. cbv iota.
  cbn [Py.read_sign]. rewrite H. reflexivity.
Qed.

Lemma to_uint_value (p : positive) :
  uint_value (Pos.to_uint p) 0 = Z.pos p.
Proof.
  rewrite uint_value_zero, DecimalPos.Unsigned.of_to. reflexivity.
Qed.

(** A positive number prints as a non-empty run of digits that reads
    back as the number. *)
Lemma int_of_str_digits (neg : bool) (p : positive) :
  let digits := NilEmpty.string_of_uint (Pos.to_uint p) in
  Py.int_of_str (if neg then String "-" digits else digits)
  = Some (if neg then Z.neg p else Z.pos p).
Proof.
  pose proof (DecimalPos.Unsigned.to_uint_nonnil p) as Hn.
  pose proof (to_uint_value p) as Hv.
  destruct (Pos.to_uint p) as [|u|u|u|u|u|u|u|u|u|u]; [congruence|..];
    cbn [uint_value NilEmpty.string_of_uint] in *;
    (destruct neg;
     [erewrite int_of_str_minus by reflexivity
     |erewrite int_of_str_unsigned by reflexivity]);
    rewrite scan_digits_string_of_uint; cbn [finish Py.skip_space];
    match type of Hv with
    | uint_value _ ?a = _ =>
        let k := eval vm_compute in a in change a with k in Hv
    end;
    match goal with
    | |- context [uint_value _ ?a] =>
        let k := eval vm_compute in a in change a with k
    end;
    rewrite Hv; reflexivity.
Qed.

Lemma str_pos (p : positive) :
  Py.str (Z.pos p) = NilEmpty.string_of_uint (Pos.to_uint p).
Proof.
  unfold Py.str. cbn [Z.to_int NilZero.string_of_int NilZero.string_of_uint].
  pose proof (DecimalPos.Unsigned.to_uint_nonnil p).
  destruct (Pos.to_uint p); [congruence | reflexivity ..].
Qed.

Lemma str_neg (p : positive) :
  Py.str (Z.neg p) = String "-" (NilEmpty.string_of_uint (Pos.to_uint p)).
Proof.
  unfold Py.str. cbn [Z.to_int NilZero.string_of_int NilZero.string_of_uint].
  pose proof (DecimalPos.Unsigned.to_uint_nonnil p).
  destruct (Pos.to_uint p); [congruence | reflexivity ..].
Qed.

(** [int(str(n)) == n] *)
Theorem int_of_str_str (n : Z) : Py.int_of_str (Py.str n) = Some n.
Proof.
  destruct n as [|p|p].
  - reflexivity.
  - rewrite str_pos. apply (int_of_str_digits false).
  - rewrite str_neg. apply (int_of_str_digits true).
Qed.

Lemma str_inj (m n : Z) : Py.str m = Py.str n -> m = n.
Proof.
  intros H. apply (f_equal Py.int_of_str) in H.
  rewrite !int_of_str_str in H. congruence.
Qed.

(** [str] gives the decimal string. *)

Lemma numeral_value_string_of_uint (u : Decimal.uint) (acc : Z) :
  numeral_value acc (NilEmpty.string_of_uint u) = Some (uint_value u acc).
Proof.
  revert acc. induction u; intros acc; cbn; auto.
Qed.

Lemma nzhead_not_D0 (u r : Decimal.uint) : Decimal.nzhead u <> Decimal.D0 r.
Proof.
  induction u; cbn [Decimal.nzhead]; try discriminate. exact IHu.
Qed.

Lemma to_uint_not_D0 (p : positive) (r : Decimal.uint) :
  Pos.to_uint p <> Decimal.D0 r.
Proof.
  intros E.
  assert (Pos.to_uint p = Decimal.unorm (Pos.to_uint p)) as Hn.
  { rewrite <- DecimalPos.Unsigned.to_of, DecimalPos.Unsigned.of_to.
    reflexivity. }
  rewrite E in Hn. unfold Decimal.unorm in Hn.
  destruct (Decimal.nzhead (Decimal.D0 r)) eqn:Hz; try discriminate.
  - injection Hn as ->. exact (DecimalPos.Unsigned.to_uint_nonzero p E).
  - exact (nzhead_not_D0 _ _ Hz).
Qed.

Lemma numeral_pos (p : positive) :
  numeral (Z.pos p) (NilEmpty.string_of_uint (Pos.to_uint p)).
Proof.
  split; [|split].
  - pose proof (DecimalPos.Unsigned.to_uint_nonnil p).
    destruct (Pos.to_uint p); [congruence | discriminate ..].
  - rewrite numeral_value_string_of_uint, to_uint_value. reflexivity.
  - intros r E. pose proof (to_uint_not_D0 p) as Hz.
    destruct (Pos.to_uint p) as [|u|u|u|u|u|u|u|u|u|u];
      try discriminate.
    destruct (Hz u eq_refl).
Qed.

Theorem str_decimal_string (n : Z) : decimal_string n (Py.str n).
Proof.
  destruct n as [|p|p].
  - left. split; [lia|]. split; [discriminate|]. split; [reflexivity|].
    intros r E. injection E as <-. reflexivity.
  - left. split; [lia|]. rewrite str_pos. apply numeral_pos.
  - right. split; [lia|]. rewrite str_neg. eexists. split; [reflexivity|].
    apply numeral_pos.
Qed.

(** The decimal string of a number is the one [str] gives. *)

Lemma digits_of_numeral (s : string) (acc n : Z) :
  numeral_value acc s = Some n ->
  exists u, s = NilEmpty.string_of_uint u /\ uint_value u acc = n.
Proof.
  revert acc. induction s as [|c s IH]; intros acc H;
    cbn [numeral_value] in H.
  - injection H as <-. exists Decimal.Nil. split; reflexivity.
  - destruct (digit_of c) as [d|] eqn:Hd; [|discriminate].
    destruct (IH _ H) as (u & -> & Hu).
    destruct c as [[] [] [] [] [] [] [] []]; vm_compute in Hd;
      try discriminate Hd; injection Hd as <-;
      first
        [ exists (Decimal.D0 u); split; [reflexivity | exact Hu]
        | exists (Decimal.D1 u); split; [reflexivity | exact Hu]
        | exists (Decimal.D2 u); split; [reflexivity | exact Hu]
        | exists (Decimal.D3 u); split; [reflexivity | exact Hu]
        | exists (Decimal.D4 u); split; [reflexivity | exact Hu]
        | exists (Decimal.D5 u); split; [reflexivity | exact Hu]
        | exists (Decimal.D6 u); split; [reflexivity | exact Hu]
        | exists (Decimal.D7 u); split; [reflexivity | exact Hu]
        | exists (Decimal.D8 u); split; [reflexivity | exact Hu]
        | exists (Decimal.D9 u); split; [reflexivity | exact Hu] ].
Qed.

Lemma numeral_unique (n : Z) (s : string) :
  numeral n s ->
  (n = 0 /\ s = "0")
  \/ exists p, n = Z.pos p /\ s = NilEmpty.string_of_uint (Pos.to_uint p).
Proof.
  intros (Hne & Hv & Hz).
  destruct (digits_of_numeral _ _ _ Hv) as (u & -> & Hu).
  rewrite uint_value_zero in Hu.
  assert (Decimal.unorm u = u) as Hnorm.
  { destruct u as [|r|r|r|r|r|r|r|r|r|r]; try reflexivity.
    - destruct Hne. reflexivity.
    - pose proof (Hz _ eq_refl) as Hr.
      destruct r; try discriminate Hr. reflexivity. }
  pose proof (DecimalPos.Unsigned.to_of u) as Hto. rewrite Hnorm in Hto.
  destruct (Pos.of_uint u) as [|p]; cbn in Hu, Hto; subst n.
  - left. split; [reflexivity|]. rewrite <- Hto. reflexivity.
  - right. exists p. split; [reflexivity|]. rewrite <- Hto. reflexivity.
Qed.

Theorem decimal_string_str (n : Z) (s : string) :
  decimal_string n s <-> s = Py.str n.
Proof.
  split; [|intros ->; apply str_decimal_string].
  intros [[Hn Hs]|(Hn & r & -> & Hr)].
  - destruct (numeral_unique _ _ Hs) as [[-> ->]|(p & -> & ->)];
      [reflexivity | symmetry; apply str_pos].
  - destruct (numeral_unique _ _ Hr) as [[E _]|(p & E & ->)]; [lia|].
    destruct n as [|q|q]; try lia. cbn in E. injection E as ->.
    symmetry. apply str_neg.
Qed.

Lemma fold_left_max_ge (l : list Z) (x : Z) :
  x <= fold_left Z.max l x /\ Forall (fun n => n <= fold_left Z.max l x) l.
Proof.
  revert x. induction l as [|y l IH]; intros x; cbn [fold_left].
  - split; [lia | constructor].
  - destruct (IH (Z.max x y)) as [H1 H2]. split; [lia|].
    constructor; [lia | exact H2].
Qed.

Lemma fold_left_max_in (l : list Z) (x : Z) :
  fold_left Z.max l x = x \/ fold_left Z.max l x ∈ l.
Proof.
  revert x. induction l as [|y l IH]; intros x; cbn [fold_left].
  - now left.
  - destruct (IH (Z.max x y)) as [H|H].
    + rewrite H. destruct (Z.max_spec x y) as [[_ ->]|[_ ->]].
      * right. left.
      * now left.
    + right. now right.
Qed.

Lemma max_spec (l : list Z) (default : Z) :
  max_or_default l default (Py.max l default).
Proof.
  destruct l as [|x l]; [left; auto|right]. cbn [Py.max].
  destruct (fold_left_max_ge l x) as [H1 H2].
  split.
  - destruct (fold_left_max_in l x) as [->|H]; [left | now right].
  - constructor; assumption.
Qed.

Lemma max_or_default_unique (l : list Z) (d m m' : Z) :
  max_or_default l d m -> max_or_default l d m' -> m = m'.
Proof.
  intros [[-> ->]|[Hin Hle]] [[E ->]|[Hin' Hle']]; auto.
  - inversion Hin'.
  - subst l. inversion Hin.
  - rewrite Forall_forall in Hle, Hle'.
    apply Hle' in Hin. apply Hle in Hin'. lia.
Qed.

End PyFacts.

(** ** Integer literals *)

Lemma append_nil (s : string) : "" ++ s = s.
Proof. reflexivity. Qed.

Lemma append_cons (c : ascii) (r s : string) : String c r ++ s = String c (r ++ s).
Proof. reflexivity. Qed.

Lemma space_not_digit c :
  Py.isspace c = true -> Py.digit_value c = None /\ Py.is_underscore c = false.
Proof.
  destruct c as [[] [] [] [] [] [] [] []]; vm_compute; intros H;
    first [discriminate | split; reflexivity].
Qed.

Lemma digit_not_sign c d :
  Py.digit_value c = Some d -> c <> "+"%char /\ c <> "-"%char /\ c <> "_"%char.
Proof.
  intros H. repeat split; intros ->; vm_compute in H; discriminate.
Qed.

Lemma skip_space_blank (s : string) : blank s -> Py.skip_space s = EmptyString.
Proof. induction 1 as [|c r Hc _ IH]; cbn; [|rewrite Hc]; auto. Qed.

Lemma blank_skip_space (s : string) : Py.skip_space s = EmptyString -> blank s.
Proof.
  induction s as [|c r IH]; cbn; [constructor|].
  destruct (Py.isspace c) eqn:Hc; [|discriminate].
  intros H. constructor; auto.
Qed.

Lemma skip_space_split (s : string) :
  exists pre, s = pre ++ Py.skip_space s /\ blank pre.
Proof.
  induction s as [|c r (pre & Hpre & Hb)]; cbn.
  - exists EmptyString. split; [reflexivity | constructor].
  - destruct (Py.isspace c) eqn:Hc.
    + exists (String c pre).
      split; [rewrite Hpre at 1; reflexivity | constructor; auto].
    + exists EmptyString. split; [reflexivity | constructor].
Qed.

Lemma skip_space_app (pre s : string) :
  blank pre -> Py.skip_space (pre ++ s) = Py.skip_space s.
Proof.
  induction 1 as [|c r Hc _ IH]; rewrite ?append_nil, ?append_cons; cbn;
    [|rewrite Hc]; auto.
Qed.

(** The digit loop accepts groups of digits followed by blanks, and
    stops at the blanks. *)
Lemma scan_digit_groups (digits post : string) :
  digit_groups digits -> blank post ->
  forall acc after_us,
  exists n, Py.scan_digits acc after_us (digits ++ post) = Some (n, post).
Proof.
  intros Hd Hpost. induction Hd as [c d Hc|c d r Hc _ IH|c d r Hc _ IH];
    intros acc after_us; rewrite ?append_cons, ?append_nil;
    cbn [Py.scan_digits]; rewrite Hc.
  - destruct Hpost as [|sp r Hsp Hr]; cbn [Py.scan_digits]; [eauto|].
    destruct (space_not_digit _ Hsp) as [-> ->]. eauto.
  - apply IH.
  - cbn [Py.scan_digits].
    change (Py.digit_value "_") with (@None Z).
    change (Py.is_underscore "_") with true. cbv iota. apply IH.
Qed.

(** What the digit loop has consumed are groups of digits. *)
Lemma scan_digits_groups (r : string) :
  forall acc after_us n rest,
    Py.scan_digits acc after_us r = Some (n, rest) ->
    if after_us
    then exists digits, r = digits ++ rest /\ digit_groups digits
    else forall c d, Py.digit_value c = Some d ->
         exists digits, String c r = digits ++ rest /\ digit_groups digits.
Proof.
  induction r as [|c' r' IH]; intros acc after_us n rest H; cbn in H.
  - destruct after_us; [discriminate|]. injection H as <- <-.
    intros c d Hc. exists (String c EmptyString).
    split; [reflexivity | econstructor; eauto].
  - destruct (Py.digit_value c') as [d'|] eqn:Hc'.
    + specialize (IH _ _ _ _ H). cbn in IH.
      destruct (IH c' d' Hc') as (digits & E & Hg).
      destruct after_us.
      * exists digits. auto.
      * intros c d Hc. exists (String c digits). rewrite append_cons, <- E.
        split; [reflexivity | eapply next_digit; eauto].
    + destruct (Py.is_underscore c') eqn:Hu.
      * destruct after_us; [discriminate|].
        specialize (IH _ _ _ _ H). cbn in IH.
        destruct IH as (digits & E & Hg).
        intros c d Hc. exists (String c (String "_" digits)).
        apply Ascii.eqb_eq in Hu. subst c'. rewrite !append_cons, <- E.
        split; [reflexivity | eapply next_group; eauto].
      * destruct after_us; [discriminate|]. injection H as <- <-.
        intros c d Hc. exists (String c EmptyString).
        split; [reflexivity | econstructor; eauto].
Qed.

Lemma digit_groups_head (digits : string) :
  digit_groups digits ->
  exists c d r, digits = String c r /\ Py.digit_value c = Some d.
Proof. destruct 1; eauto. Qed.

(** [int] accepts exactly the base-10 integer literals. *)
Theorem int_of_str_accepts (s : string) :
  is_Some (Py.int_of_str s) <-> int_literal s.
Proof.
  split.
  - intros [n H]. unfold Py.int_of_str in H.
    destruct (skip_space_split s) as (pre & Hs & Hpre).
    destruct (Py.read_sign (Py.skip_space s)) as [neg body] eqn:Hsign.
    assert (Hsg : exists sign, Py.skip_space s = sign ++ body
                               /\ (sign = "" \/ sign = "+" \/ sign = "-")).
    { unfold Py.read_sign in Hsign.
      destruct (Py.skip_space s) as [|c r]; [injection Hsign as <- <-; exists ""; auto|].
      destruct (Ascii.eqb_spec c "+") as [->|Hp];
        [injection Hsign as <- <-; exists "+"; auto|].
      destruct (Ascii.eqb_spec c "-") as [->|Hm];
        [injection Hsign as <- <-; exists "-"; auto|].
      exists "". split; [|auto]. cbn.
      destruct c as [[] [] [] [] [] [] [] []];
        first [congruence | injection Hsign as <- <-; reflexivity]. }
    destruct Hsg as (sign & Hbody & Hsg).
    destruct body as [|c r]; [discriminate|].
    destruct (Py.digit_value c) as [d|] eqn:Hc; [|discriminate].
    destruct (Py.scan_digits d false r) as [[v rest]|] eqn:Hscan; [|discriminate].
    destruct (Py.skip_space rest) eqn:Hrest; [|discriminate].
    pose proof (scan_digits_groups _ _ _ _ _ Hscan) as Hg. cbn in Hg.
    destruct (Hg c d Hc) as (digits & E & Hdg).
    rewrite Hs, Hbody, E.
    constructor; auto using blank_skip_space.
  - intros [pre sign digits post Hpre Hsign Hd Hpost].
    destruct (digit_groups_head _ Hd) as (c & d & r & -> & Hc).
    destruct (scan_digit_groups _ _ Hd Hpost 0 false) as (n & Hn).
    rewrite append_cons in Hn. cbn [Py.scan_digits] in Hn. rewrite Hc in Hn.
    change (0 * 10 + d) with d in Hn.
    destruct (digit_not_sign _ _ Hc) as (Hp & Hm & _).
    unfold Py.int_of_str. rewrite skip_space_app by exact Hpre.
    destruct Hsign as [->|[->| ->]];
      repeat (rewrite append_nil || rewrite append_cons);
      cbn [Py.skip_space].
    + rewrite (PyFacts.digit_not_space _ _ Hc).
      rewrite (PyFacts.read_sign_digit _ _ _ Hc). cbv beta iota.
      rewrite Hc, Hn, (skip_space_blank _ Hpost). eauto.
    + change (Py.isspace "+") with false. cbv iota. cbn [Py.read_sign].
      cbv beta iota. rewrite Hc, Hn, (skip_space_blank _ Hpost). eauto.
    + change (Py.isspace "-") with false. cbv iota. cbn [Py.read_sign].
      cbv beta iota. rewrite Hc, Hn, (skip_space_blank _ Hpost). eauto.
Qed.

(** An id stands for an integer exactly when it is a string holding a
    base-10 integer literal. *)
Lemma id_number_numeric (e : Item) :
  is_Some (id_number e) <-> numeric_id (id e).
Proof.
  unfold id_number, numeric_id. destruct (id e) as [s|].
  - rewrite int_of_str_accepts. split.
    + intros H. exists s. auto.
    + intros (s' & E & H). injection E as <-. exact H.
  - split.
    + intros [n H]. discriminate.
    + intros (s & E & _). discriminate.
Qed.

Lemma id_number_not_numeric (e : Item) :
  id_number e = None <-> ~ numeric_id (id e).
Proof.
  rewrite <- id_number_numeric, <- eq_None_not_Some. reflexivity.
Qed.

(** ** Facts about the storage helpers *)

Section Storage.

Lemma for_each_Item_of_dict (docs : list Item) (w : world) :
  for_each Item_of_dict docs w
  = if forallb validated docs then (Return docs, w) else (Raise ValidationError, w).
Proof.
  induction docs as [|d docs IH]; [reflexivity|].
  cbn [for_each forallb]. unfold bind at 1. unfold Item_of_dict at 1.
  destruct (validated d); cbn [andb]; [|reflexivity].
  unfold ret at 1. unfold bind at 1. rewrite IH.
  destruct (forallb validated docs); reflexivity.
Qed.

Lemma read_data_Missing (w : world) :
  file w = Missing -> read_data w = (Return [], w).
Proof.
  intros H. run. repeat (rewrite H; cbv beta iota).
  unfold logged, stored. rewrite ?H. reflexivity.
Qed.

Lemma read_data_Unreadable (w : world) (e : string) :
  file w = Unreadable e -> read_data w = (Return [], logged (read_error e) w).
Proof.
  intros H. run. repeat (rewrite H; cbv beta iota).
  unfold logged, stored. rewrite ?H. reflexivity.
Qed.

Lemma read_data_Malformed (w : world) (e : string) :
  file w = Malformed e -> read_data w = (Return [], logged (read_error e) w).
Proof.
  intros H. run. repeat (rewrite H; cbv beta iota).
  unfold logged, stored. rewrite ?H. reflexivity.
Qed.

Lemma read_data_Records (w : world) (docs : list Item) :
  file w = Records docs ->
  read_data w
  = if forallb validated docs then (Return docs, w) else (Raise ValidationError, w).
Proof.
  intros H. run. repeat (rewrite H; cbv beta iota).
  rewrite for_each_Item_of_dict.
  destruct (forallb validated docs); reflexivity.
Qed.

Lemma read_data_Undecodable (w : world) (e : string) :
  file w = Undecodable e -> read_data w = (Raise (UnicodeDecodeError e), w).
Proof.
  intros H. run. repeat (rewrite H; cbv beta iota). reflexivity.
Qed.

Lemma read_data_Misshapen (w : world) (docs : list Item) :
  file w = Misshapen docs ->
  read_data w
  = if forallb validated docs
    then (Raise TypeError, w) else (Raise ValidationError, w).
Proof.
  intros H. run. repeat (rewrite H; cbv beta iota).
  unfold bind. rewrite for_each_Item_of_dict.
  destruct (forallb validated docs); reflexivity.
Qed.

(** What a read that returns tells about the world: the items passed
    validation, and the file and the medium are as before. *)
Lemma read_data_Return (w w1 : world) (data : list Item) :
  read_data w = (Return data, w1) ->
  forallb validated data = true /\ file w1 = file w /\ disk w1 = disk w.
Proof.
  intros H. destruct (file w) as [|e|e|docs|e|docs] eqn:Hf.
  - rewrite (read_data_Missing _ Hf) in H. injection H as <- <-. auto.
  - rewrite (read_data_Unreadable _ _ Hf) in H. injection H as <- <-. auto.
  - rewrite (read_data_Malformed _ _ Hf) in H. injection H as <- <-. auto.
  - rewrite (read_data_Records _ _ Hf) in H.
    destruct (forallb validated docs) eqn:Hv; [|discriminate].
    injection H as <- <-. auto.
  - rewrite (read_data_Undecodable _ _ Hf) in H. discriminate.
  - rewrite (read_data_Misshapen _ _ Hf) in H.
    destruct (forallb validated docs); discriminate.
Qed.

(** A non-empty result can only come from the records of the file. *)
Lemma read_data_nonempty (w w1 : world) (data : list Item) :
  read_data w = (Return data, w1) -> data <> [] ->
  file w = Records data /\ w1 = w.
Proof.
  intros H Hne. destruct (file w) as [|e|e|docs|e|docs] eqn:Hf.
  - rewrite (read_data_Missing _ Hf) in H. congruence.
  - rewrite (read_data_Unreadable _ _ Hf) in H. congruence.
  - rewrite (read_data_Malformed _ _ Hf) in H. congruence.
  - rewrite (read_data_Records _ _ Hf) in H.
    destruct (forallb validated docs); [|discriminate].
    injection H as <- <-. auto.
  - rewrite (read_data_Undecodable _ _ Hf) in H. discriminate.
  - rewrite (read_data_Misshapen _ _ Hf) in H.
    destruct (forallb validated docs); discriminate.
Qed.

Lemma write_data_Writable (data : list Item) (w : world) :
  disk w = Writable -> write_data data w = (Return tt, stored data w).
Proof.
  intros H. run. repeat (rewrite H; cbv beta iota).
  unfold logged, stored. rewrite ?H. reflexivity.
Qed.

Lemma write_data_ReadOnly (data : list Item) (w : world) (e : string) :
  disk w = ReadOnly e -> write_data data w = (Return tt, logged (write_error e) w).
Proof.
  intros H. run. repeat (rewrite H; cbv beta iota).
  unfold logged, stored. rewrite ?H. reflexivity.
Qed.

(** [write_data] returns whatever happens to the file. *)
Lemma write_data_Return (data : list Item) (w : world) :
  fst (write_data data w) = Return tt.
Proof. run. destruct (disk w); reflexivity. Qed.

Lemma write_data_disk (data : list Item) (w : world) :
  disk (snd (write_data data w)) = disk w.
Proof. run. destruct (disk w) eqn:E; cbn; congruence. Qed.

(** Reading back what was written on a medium that takes writes. *)
Lemma read_data_stored (data : list Item) (w : world) :
  forallb validated data = true ->
  read_data (stored data w) = (Return data, stored data w).
Proof.
  intros Hv. rewrite (read_data_Records _ data) by reflexivity.
  rewrite Hv. reflexivity.
Qed.

End Storage.

(** ** The handlers, once the collection has been read *)

Section Handlers.

Variables (w w1 : world) (data : list Item).
Hypothesis Hread : read_data w = (Return data, w1).

Lemma write_then {A} (l : list Item) (a : A) (w0 : world) :
  (write_data l ;;; ret a) w0 = (Return a, snd (write_data l w0)).
Proof.
  unfold bind. pose proof (write_data_Return l w0) as H.
  destruct (write_data l w0) as [o w']. cbn in *. subst o. reflexivity.
Qed.

Lemma find_first_match (item_id : string) (idx : nat) (existing : Item) :
  first_match data item_id idx existing <->
  list_find (fun item => id item = Some item_id) data = Some (idx, existing).
Proof. unfold first_match. rewrite list_find_Some. reflexivity. Qed.

Lemma find_no_match (item_id : string) :
  no_match data item_id <->
  list_find (fun item => id item = Some item_id) data = None.
Proof. unfold no_match. rewrite list_find_None. reflexivity. Qed.

Lemma get_item_found item_id idx existing :
  first_match data item_id idx existing ->
  get_item item_id w = (Return existing, w1).
Proof.
  intros H. apply find_first_match in H.
  unfold get_item, bind. rewrite Hread, H. reflexivity.
Qed.

Lemma get_item_not_found item_id :
  no_match data item_id ->
  get_item item_id w = (Raise (HTTPException 404 "Item not found"), w1).
Proof.
  intros H. apply find_no_match in H.
  unfold get_item, bind. rewrite Hread, H. reflexivity.
Qed.

Lemma update_item_found item_id item idx existing :
  first_match data item_id idx existing ->
  let replaced := set_id item (Some item_id) in
  update_item item_id item w
  = (Return replaced, snd (write_data (<[idx := replaced]> data) w1)).
Proof.
  intros H. apply find_first_match in H.
  unfold update_item. unfold bind at 1. rewrite Hread, H.
  apply write_then.
Qed.

Lemma update_item_not_found item_id item :
  no_match data item_id ->
  update_item item_id item w = (Raise (HTTPException 404 "Item not found"), w1).
Proof.
  intros H. apply find_no_match in H.
  unfold update_item, bind. rewrite Hread, H. reflexivity.
Qed.

Lemma patch_item_found item_id item_update idx existing :
  first_match data item_id idx existing ->
  let updated_item := copy_update existing item_update in
  patch_item item_id item_update w
  = (Return updated_item, snd (write_data (<[idx := updated_item]> data) w1)).
Proof.
  intros H. apply find_first_match in H.
  unfold patch_item. unfold bind at 1. rewrite Hread, H.
  apply write_then.
Qed.

Lemma patch_item_not_found item_id item_update :
  no_match data item_id ->
  patch_item item_id item_update w
  = (Raise (HTTPException 404 "Item not found"), w1).
Proof.
  intros H. apply find_no_match in H.
  unfold patch_item, bind. rewrite Hread, H. reflexivity.
Qed.

Lemma int_of_id_number (e : Item) (n : Z) (w0 : world) :
  id_number e = Some n -> int_of_id e w0 = (Return n, w0).
Proof.
  unfold id_number, int_of_id. destruct (id e) as [s|]; [|discriminate].
  intros ->. reflexivity.
Qed.

Lemma int_of_id_fails (e : Item) (w0 : world) :
  id_number e = None ->
  exists x, int_of_id e w0 = (Raise x, w0) /\ (x = ValueError \/ x = TypeError).
Proof.
  unfold id_number, int_of_id. destruct (id e) as [s|].
  - intros ->. exists ValueError. auto.
  - intros _. exists TypeError. auto.
Qed.

Lemma for_each_int_of_id_Some (l : list Item) (ns : list Z) (w0 : world) :
  id_numbers l = Some ns -> for_each int_of_id l w0 = (Return ns, w0).
Proof.
  unfold id_numbers. revert ns.
  induction l as [|e l IH]; intros ns H; cbn in H.
  - injection H as <-. reflexivity.
  - destruct (id_number e) as [n|] eqn:He; [|discriminate]. cbn in H.
    destruct (mapM id_number l) as [ms|] eqn:Hl; [|discriminate].
    cbn in H. injection H as <-.
    cbn [for_each]. unfold bind at 1. rewrite (int_of_id_number _ _ _ He).
    unfold bind at 1. rewrite (IH ms eq_refl). reflexivity.
Qed.

Lemma for_each_int_of_id_None (l : list Item) (w0 : world) :
  id_numbers l = None ->
  exists x, for_each int_of_id l w0 = (Raise x, w0)
            /\ (x = ValueError \/ x = TypeError).
Proof.
  unfold id_numbers.
  induction l as [|e l IH]; intros H; cbn in H; [discriminate|].
  cbn [for_each]. unfold bind at 1.
  destruct (id_number e) as [n|] eqn:He.
  - rewrite (int_of_id_number _ _ _ He). unfold bind at 1.
    cbn in H. destruct (mapM id_number l) as [ms|] eqn:Hl; [discriminate|].
    destruct (IH eq_refl) as (x & -> & Hx). exists x. auto.
  - destruct (int_of_id_fails _ w0 He) as (x & -> & Hx). exists x. auto.
Qed.

Lemma create_item_numbered item ns :
  id_numbers data = Some ns ->
  let created := set_id item (Some (Py.str (Py.max ns 0 + 1))) in
  create_item item w
  = (Return created, snd (write_data (data ++ [created]) w1)).
Proof.
  intros H. unfold create_item. unfold bind at 1. rewrite Hread.
  unfold bind at 1. rewrite (for_each_int_of_id_Some _ _ _ H).
  apply write_then.
Qed.

Lemma create_item_aborts item :
  id_numbers data = None ->
  exists x, create_item item w = (Raise x, w1)
            /\ (x = ValueError \/ x = TypeError).
Proof.
  intros H. unfold create_item. unfold bind at 1. rewrite Hread.
  unfold bind at 1.
  destruct (for_each_int_of_id_None _ w1 H) as (x & -> & Hx). exists x. auto.
Qed.

Lemma delete_item_eq item_id :
  let new_data := filter (fun item => id item <> Some item_id) data in
  delete_item item_id w
  = if (length new_data =? length data)%nat
    then (Raise (HTTPException 404 "Item not found"), w1)
    else (Return tt, snd (write_data new_data w1)).
Proof.
  cbn zeta. unfold delete_item. unfold bind at 1. rewrite Hread.
  destruct (_ =? _)%nat; [reflexivity|]. apply write_then.
Qed.

End Handlers.

(** ** Lists of items *)

Lemma all_validated (l : list Item) :
  forallb validated l = true <-> Forall (fun x => validated x = true) l.
Proof.
  induction l as [|x l IH]; cbn [forallb].
  - split; [constructor | reflexivity].
  - rewrite andb_true_iff, Forall_cons, IH. reflexivity.
Qed.

Lemma all_validated_insert (l : list Item) (i : nat) (x : Item) :
  forallb validated l = true -> validated x = true ->
  forallb validated (<[i := x]> l) = true.
Proof.
  rewrite !all_validated. intros Hl Hx. apply Forall_insert; assumption.
Qed.

Lemma all_validated_filter (P : Item -> Prop) `{forall x, Decision (P x)}
    (l : list Item) :
  forallb validated l = true -> forallb validated (filter P l) = true.
Proof.
  rewrite !all_validated, !Forall_forall. intros Hl x Hx.
  apply list_elem_of_filter in Hx as [_ Hx]. auto.
Qed.

(** Either some item carries the id, and then there is a first one, or
    none does. *)
Lemma match_or_not (data : list Item) (item_id : string) :
  (exists idx existing, first_match data item_id idx existing)
  \/ no_match data item_id.
Proof.
  destruct (list_find (fun item => id item = Some item_id) data)
    as [[idx existing]|] eqn:H.
  - left. exists idx, existing. apply find_first_match, H.
  - right. apply find_no_match, H.
Qed.

Lemma first_match_excludes_no_match data item_id idx existing :
  first_match data item_id idx existing -> ~ no_match data item_id.
Proof.
  intros (Hl & Hid & _) Hno. unfold no_match in Hno.
  rewrite Forall_lookup in Hno. exact (Hno _ _ Hl Hid).
Qed.

Lemma first_match_of_elem (data : list Item) (item_id : string) (e : Item) :
  e ∈ data -> id e = Some item_id ->
  exists idx existing, first_match data item_id idx existing.
Proof.
  intros He Hid. destruct (match_or_not data item_id) as [H|H]; [exact H|].
  unfold no_match in H. rewrite Forall_forall in H. destruct (H e He Hid).
Qed.

(** Replacing the first match by an item with the same id leaves it the
    first match. *)
Lemma first_match_insert data item_id idx existing (x : Item) :
  first_match data item_id idx existing -> id x = Some item_id ->
  first_match (<[idx := x]> data) item_id idx x.
Proof.
  intros (Hl & Hid & Hfirst) Hx. split; [|split; [exact Hx|]].
  - apply list_lookup_insert_eq. eapply lookup_lt_Some, Hl.
  - intros j y Hj Hlt. rewrite list_lookup_insert_ne in Hj by lia. eauto.
Qed.

(** The id [create_item] computes is carried by no stored item: every
    stored id reads as an integer below it. *)
Lemma next_id_fresh (data : list Item) (ns : list Z) :
  id_numbers data = Some ns ->
  no_match data (Py.str (Py.max ns 0 + 1)).
Proof.
  intros Hns. apply Forall_forall. intros e He Hid.
  apply mapM_Some in Hns.
  apply list_elem_of_lookup_1 in He as [i Hi].
  destruct (Forall2_lookup_l _ _ _ _ _ Hns Hi) as (n & Hn & Hnum).
  unfold id_number in Hnum. rewrite Hid, PyFacts.int_of_str_str in Hnum.
  injection Hnum as <-.
  destruct (PyFacts.max_spec ns 0) as [[-> _]|[_ Hle]].
  - discriminate.
  - rewrite Forall_forall in Hle.
    apply list_elem_of_lookup_2, Hle in Hn. lia.
Qed.


Lemma validated_set_id (item : Item) (v : option string) :
  validated (set_id item v) = validated item.
Proof. reflexivity. Qed.

Lemma copy_update_no_fields (existing : Item) :
  copy_update existing no_fields = existing.
Proof. destruct existing. reflexivity. Qed.

Lemma filter_keeps_all (data : list Item) (item_id : string) :
  no_match data item_id <->
  length (filter (fun item => id item <> Some item_id) data) = length data.
Proof.
  unfold no_match. split.
  - intros H. induction H as [|x l Hx _ IH]; [reflexivity|].
    rewrite filter_cons_True by exact Hx. cbn. rewrite IH. reflexivity.
  - intros H. apply Forall_forall. intros x Hx Hid.
    pose proof (length_filter_lt (fun item => id item <> Some item_id) data x Hx)
      as Hlt.
    assert (length (filter (fun item => id item <> Some item_id) data)
            < length data)%nat by (apply Hlt; intros Hn; exact (Hn Hid)).
    lia.
Qed.

Lemma filter_no_match (data : list Item) (item_id : string) :
  no_match (filter (fun item => id item <> Some item_id) data) item_id.
Proof.
  apply Forall_forall. intros x Hx.
  apply list_elem_of_filter in Hx as [Hx _]. exact Hx.
Qed.

Lemma DELETE_item_no_match (w w1 : world) (data : list Item) (item_id : string) :
  read_data w = (Return data, w1) ->
  no_match data item_id ->
  DELETE_item item_id w
  = ({| status := 404; content := DetailBody "Item not found" |}, w1).
Proof.
  intros Hread Hno. unfold DELETE_item, respond.
  rewrite (delete_item_eq _ _ _ Hread item_id). cbn zeta.
  apply filter_keeps_all, Nat.eqb_eq in Hno. rewrite Hno. reflexivity.
Qed.

Lemma DELETE_item_match (w w1 : world) (data : list Item) (item_id : string) :
  read_data w = (Return data, w1) ->
  ~ no_match data item_id ->
  DELETE_item item_id w
  = ({| status := 204; content := NoBody |},
     snd (write_data (filter (fun item => id item <> Some item_id) data) w1)).
Proof.
  intros Hread Hsome. unfold DELETE_item, respond.
  rewrite (delete_item_eq _ _ _ Hread item_id). cbn zeta.
  destruct (_ =? _)%nat eqn:E.
  - apply Nat.eqb_eq, filter_keeps_all in E. contradiction.
  - reflexivity.
Qed.

(** The exceptions [read_data] lets through, with the world as it was:
    the validation error of the model class, for an object that lacks a
    required value; the type error of the comprehension, for JSON that
    is not an array of objects; the decoding error, for a file that is
    not UTF-8. *)
Lemma read_data_raises (w w1 : world) (x : exn) :
  read_data w = (Raise x, w1) ->
  w1 = w
  /\ ((x = ValidationError
       /\ exists docs, (file w = Records docs \/ file w = Misshapen docs)
                       /\ forallb validated docs = false)
      \/ (x = TypeError
          /\ exists docs, file w = Misshapen docs
                          /\ forallb validated docs = true)
      \/ (exists e, x = UnicodeDecodeError e /\ file w = Undecodable e)).
Proof.
  intros H. destruct (file w) as [|e|e|docs|e|docs] eqn:Hf.
  - rewrite (read_data_Missing _ Hf) in H. discriminate.
  - rewrite (read_data_Unreadable _ _ Hf) in H. discriminate.
  - rewrite (read_data_Malformed _ _ Hf) in H. discriminate.
  - rewrite (read_data_Records _ _ Hf) in H.
    destruct (forallb validated docs) eqn:Hv; [discriminate|].
    injection H as <- <-. split; [reflexivity|]. left. eauto.
  - rewrite (read_data_Undecodable _ _ Hf) in H. injection H as <- <-.
    split; [reflexivity|]. right. right. eauto.
  - rewrite (read_data_Misshapen _ _ Hf) in H.
    destruct (forallb validated docs) eqn:Hv; injection H as <- <-;
      (split; [reflexivity|]); [right; left | left]; eauto.
Qed.

(** None of them is an [HTTPException]: a route whose read raises
    answers with an internal server error. *)
Lemma respond_read_raises {A} (status_code : Z) (response_model : A -> body)
    (k : list Item -> py A) (w w1 : world) (x : exn) :
  read_data w = (Raise x, w1) ->
  respond status_code response_model (bind read_data k) w
  = ({| status := 500; content := InternalServerError |}, w).
Proof.
  intros H. destruct (read_data_raises _ _ _ H) as (-> & Hx).
  unfold respond, bind. rewrite H.
  destruct Hx as [(-> & _)|[(-> & _)|(e & -> & _)]]; reflexivity.
Qed.

(** * Part IV. The properties of the service *)

(** ** Reading *)

(** C9, with the cases it leaves out.  [read_data] swallows the two
    kinds of error its [except] names, and only these.  When the file
    does not exist it returns the empty list and prints nothing; when
    opening or reading the file fails with an I/O error, or the text is
    not valid JSON, it prints one diagnostic and returns the empty list;
    it never raises an I/O error or a JSON decoding error.  So listing
    the items of a deployment without a backing file answers 200 with
    an empty array.  An array of valid records is returned as it stands
    in the file.  Every other failure gets out, with nothing printed:
    the decoding error of a file that is not UTF-8, the type error of
    JSON that is not an array of objects, and the validation error of
    an object that is not a valid item; the listing then answers 500. *)
Theorem read_data_swallows_storage_errors (w : world) :
  read_data w
  = match file w with
    | Missing => (Return [], w)
    | Unreadable e | Malformed e => (Return [], logged (read_error e) w)
    | Records docs =>
        if forallb validated docs
        then (Return docs, w) else (Raise ValidationError, w)
    | Undecodable e => (Raise (UnicodeDecodeError e), w)
    | Misshapen docs =>
        if forallb validated docs
        then (Raise TypeError, w) else (Raise ValidationError, w)
    end
  /\ (file w = Missing ->
      GET_items w = ({| status := 200; content := ListBody [] |}, w))
  /\ (forall x, fst (read_data w) = Raise x ->
      GET_items w = ({| status := 500; content := InternalServerError |}, w))
  /\ (forall e, fst (read_data w) <> Raise (IOError e))
  /\ (forall e, fst (read_data w) <> Raise (JSONDecodeError e)).
Proof.
  split; [|split; [|split]].
  - destruct (file w) as [|e|e|docs|e|docs] eqn:Hf.
    + apply read_data_Missing, Hf.
    + apply read_data_Unreadable, Hf.
    + apply read_data_Malformed, Hf.
    + apply read_data_Records, Hf.
    + apply read_data_Undecodable, Hf.
    + apply read_data_Misshapen, Hf.
  - intros Hf. unfold GET_items, respond, get_items.
    rewrite (read_data_Missing _ Hf). reflexivity.
  - intros x Hx. destruct (read_data w) as [o w1] eqn:Hr. cbn in Hx.
    subst o. unfold GET_items, respond, get_items. rewrite Hr.
    destruct (read_data_raises _ _ _ Hr)
      as (-> & [(-> & _)|[(-> & _)|(e' & -> & _)]]); reflexivity.
  - destruct (read_data w) as [[data|x] w1] eqn:Hr;
      [split; discriminate|].
    destruct (read_data_raises _ _ _ Hr)
      as (_ & [(-> & _)|[(-> & _)|(e' & -> & _)]]);
      split; discriminate.
Qed.

(** C9 as first stated fails for a file that is not UTF-8 text, and for
    a file that holds JSON of another shape: nothing is printed, the
    error leaves [read_data], and the listing answers 500. *)
Lemma read_data_swallows_storage_errors_counterexample :
  read_data Scenario.binary
  = (Raise (UnicodeDecodeError "invalid start byte"), Scenario.binary)
  /\ GET_items Scenario.binary
     = ({| status := 500; content := InternalServerError |}, Scenario.binary)
  /\ read_data Scenario.scalar = (Raise TypeError, Scenario.scalar)
  /\ GET_items Scenario.scalar
     = ({| status := 500; content := InternalServerError |}, Scenario.scalar).
Proof. repeat split. Qed.

(** ** Creating *)

(** C1. When every stored id reads as an integer, [create_item] gives
    the new item the decimal string of [m + 1] as its id, where [m] is
    the largest of these integers, or 0 for an empty collection: the
    digits of the number, without a leading zero, after a minus sign
    when it is negative; read as an integer the id is [m + 1].  The id
    of the payload does not matter.  The item goes to the end of the
    list, the whole list is handed to [write_data], and the item with
    its new id is returned.  On a medium that takes the write the file
    then holds that list. *)
Theorem create_item_next_id (w w1 : world) (data : list Item) (ns : list Z)
    (item : Item) :
  read_data w = (Return data, w1) ->
  id_numbers data = Some ns ->
  exists m new_id,
    max_or_default ns 0 m
    /\ decimal_string (m + 1) new_id
    /\ Py.int_of_str new_id = Some (m + 1)
    /\ let created := set_id item (Some new_id) in
       create_item item w
       = (Return created, snd (write_data (data ++ [created]) w1))
       /\ (forall supplied, create_item (set_id item supplied) w = create_item item w)
       /\ (disk w = Writable ->
           file (snd (create_item item w)) = Records (data ++ [created])).
Proof.
  intros Hread Hns. exists (Py.max ns 0), (Py.str (Py.max ns 0 + 1)).
  split; [apply PyFacts.max_spec|].
  split; [apply PyFacts.str_decimal_string|].
  split; [apply PyFacts.int_of_str_str|]. cbn zeta.
  pose proof (create_item_numbered _ _ _ Hread item _ Hns) as Hc.
  cbn zeta in Hc. split; [exact Hc|]. split.
  - intros supplied.
    rewrite Hc, (create_item_numbered _ _ _ Hread (set_id item supplied) _ Hns).
    reflexivity.
  - intros Hw. rewrite Hc. cbn [snd].
    destruct (read_data_Return _ _ _ Hread) as (_ & _ & Hd).
    rewrite write_data_Writable by congruence. reflexivity.
Qed.

Lemma create_item_next_id_witness :
  read_data Scenario.stocked = (Return Scenario.shelf, Scenario.stocked)
  /\ id_numbers Scenario.shelf = Some [3; 10]
  /\ exists m new_id,
       max_or_default [3; 10] 0 m
       /\ m = 10
       /\ decimal_string (m + 1) new_id
       /\ new_id = "11"
       /\ create_item Scenario.gadget Scenario.stocked
          = (Return (set_id Scenario.gadget (Some "11")),
             stored (Scenario.shelf ++ [set_id Scenario.gadget (Some "11")])
               Scenario.stocked).
Proof.
  split; [reflexivity|]. split; [reflexivity|].
  destruct (create_item_next_id Scenario.stocked Scenario.stocked Scenario.shelf
              [3; 10] Scenario.gadget eq_refl eq_refl)
    as (m & new_id & Hm & Hdec & Hint & Hc & _).
  exists m, new_id. split; [exact Hm|].
  assert (m = 10) as E.
  { apply (PyFacts.max_or_default_unique [3; 10] 0); [exact Hm|].
    right. split; [right; left | repeat constructor; lia]. }
  split; [exact E|]. split; [exact Hdec|].
  assert (new_id = "11") as E'; [|split; [exact E' | reflexivity]].
  assert (fst (create_item Scenario.gadget Scenario.stocked)
          = Return (set_id Scenario.gadget (Some "11"))) as Hrun
    by reflexivity.
  rewrite Hc in Hrun. cbn [fst] in Hrun. injection Hrun as ->. reflexivity.
Defined.

(** C2. [create_item] fails in its id computation exactly when some
    stored id is not a base-10 integer literal (or is no string at all).
    It then ends with a [ValueError] or a [TypeError], which nothing
    catches: the answer is an internal server error, no id has been
    assigned and the file is as it was.  When every stored id is such a
    literal the call returns. *)
Theorem create_item_malformed_id (w w1 : world) (data : list Item) (item : Item) :
  read_data w = (Return data, w1) ->
  ((exists e, e ∈ data /\ ~ numeric_id (id e))
   <-> exists x, create_item item w = (Raise x, w1)
                 /\ (x = ValueError \/ x = TypeError))
  /\ ((exists e, e ∈ data /\ ~ numeric_id (id e))
      -> POST_items item w
         = ({| status := 500; content := InternalServerError |}, w1)
         /\ file w1 = file w)
  /\ ((forall e, e ∈ data -> numeric_id (id e))
      -> exists created w2, create_item item w = (Return created, w2)).
Proof.
  intros Hread.
  destruct (read_data_Return _ _ _ Hread) as (_ & Hf & _).
  assert (Habort : (exists e, e ∈ data /\ ~ numeric_id (id e)) ->
    exists x, create_item item w = (Raise x, w1)
              /\ (x = ValueError \/ x = TypeError)).
  { intros (e & Hin & He). apply id_number_not_numeric in He.
    assert (Hnone : id_numbers data = None).
    { apply mapM_None, Exists_exists. eauto. }
    exact (create_item_aborts _ _ _ Hread item Hnone). }
  split; [split|split].
  - exact Habort.
  - intros (x & Hx & _).
    destruct (id_numbers data) as [ns|] eqn:Hns.
    + rewrite (create_item_numbered _ _ _ Hread item _ Hns) in Hx. discriminate.
    + apply mapM_None, Exists_exists in Hns. destruct Hns as (e & Hin & He).
      exists e. split; [exact Hin|]. apply id_number_not_numeric, He.
  - intros Hbad. destruct (Habort Hbad) as (x & Hx & Hk).
    split; [|exact Hf]. unfold POST_items, respond. rewrite Hx.
    destruct Hk as [-> | ->]; reflexivity.
  - intros Hall.
    assert (Hsome : is_Some (id_numbers data)).
    { apply mapM_is_Some, Forall_forall. intros e He. cbn.
      apply id_number_numeric, Hall, He. }
    destruct Hsome as [ns Hns].
    rewrite (create_item_numbered _ _ _ Hread item _ Hns). eauto.
Qed.

Lemma create_item_malformed_id_witness :
  read_data Scenario.jumbled = (Return Scenario.odd_shelf, Scenario.jumbled)
  /\ ((exists e, e ∈ Scenario.odd_shelf /\ ~ numeric_id (id e))
      <-> exists x, create_item Scenario.gadget Scenario.jumbled
                    = (Raise x, Scenario.jumbled)
                    /\ (x = ValueError \/ x = TypeError)).
Proof.
  split; [reflexivity|].
  exact (proj1 (create_item_malformed_id Scenario.jumbled Scenario.jumbled
                  Scenario.odd_shelf Scenario.gadget eq_refl)).
Defined.




(** ** Replacing *)

(** C6. [update_item] looks for the first item whose id is the path id.
    When there is one, the payload, with its id overwritten by the path
    id, takes its place; the list is handed to [write_data] and the
    payload is returned.  The stored id is the path id whatever the
    payload said, and the other positions are untouched.  When there is
    none the answer is 404 and nothing is written. *)
Theorem update_item_replaces (w w1 : world) (data : list Item)
    (item_id : string) (item : Item) :
  read_data w = (Return data, w1) ->
  let replaced := set_id item (Some item_id) in
  (forall idx existing,
      first_match data item_id idx existing ->
      update_item item_id item w
      = (Return replaced, snd (write_data (<[idx := replaced]> data) w1))
      /\ <[idx := replaced]> data !! idx = Some replaced
      /\ (forall j, j <> idx -> <[idx := replaced]> data !! j = data !! j)
      /\ (disk w = Writable ->
          file (snd (update_item item_id item w))
          = Records (<[idx := replaced]> data)))
  /\ id replaced = Some item_id
  /\ name replaced = name item
  /\ description replaced = description item
  /\ price replaced = price item
  /\ quantity replaced = quantity item
  /\ (no_match data item_id ->
      update_item item_id item w
      = (Raise (HTTPException 404 "Item not found"), w1)
      /\ PUT_item item_id item w
         = ({| status := 404; content := DetailBody "Item not found" |}, w1)
      /\ file w1 = file w)
  /\ ((exists idx existing, first_match data item_id idx existing)
      \/ no_match data item_id).
Proof.
  intros Hread replaced.
  destruct (read_data_Return _ _ _ Hread) as (_ & Hf & Hd).
  split; [|repeat (split; [reflexivity|]); split].
  - intros idx existing Hm.
    pose proof (update_item_found _ _ _ Hread item_id item idx existing Hm) as Hu.
    cbn zeta in Hu. fold replaced in Hu.
    split; [exact Hu|]. split; [|split].
    + apply list_lookup_insert_eq. destruct Hm as (Hl & _).
      eapply lookup_lt_Some, Hl.
    + intros j Hj. apply list_lookup_insert_ne. congruence.
    + intros Hw. rewrite Hu. cbn [snd].
      rewrite write_data_Writable by congruence. reflexivity.
  - intros Hno.
    pose proof (update_item_not_found _ _ _ Hread item_id item Hno) as Hu.
    split; [exact Hu|]. split; [|exact Hf].
    unfold PUT_item, respond. rewrite Hu. reflexivity.
  - apply match_or_not.
Qed.

Lemma update_item_replaces_witness :
  update_item "10" Scenario.widget Scenario.stocked
  = (Return (set_id Scenario.widget (Some "10")),
     snd (write_data (<[1%nat := set_id Scenario.widget (Some "10")]> Scenario.shelf)
            Scenario.stocked)).
Proof.
  destruct (update_item_replaces Scenario.stocked Scenario.stocked Scenario.shelf
              "10" Scenario.widget eq_refl) as (Hfound & _).
  destruct (Hfound 1%nat Scenario.gadget10
              (proj2 (find_first_match Scenario.shelf "10" 1 Scenario.gadget10) eq_refl))
    as (Hu & _).
  exact Hu.
Defined.

(** C5, with the condition it needs.  Replacing is idempotent when its
    write reaches the file: when the id is in the stored collection, a
    second [update_item] with the same id and payload returns the same
    item as the first and leaves the world, and so the file, as the
    first left it. *)
Theorem update_item_idempotent (w w1 : world) (data : list Item)
    (item_id : string) (item e : Item) :
  read_data w = (Return data, w1) ->
  e ∈ data -> id e = Some item_id ->
  validated item = true ->
  disk w = Writable ->
  update_item item_id item (snd (update_item item_id item w))
  = update_item item_id item w.
Proof.
  intros Hread He Hid Hval Hw.
  destruct (first_match_of_elem _ _ _ He Hid) as (idx & existing & Hm).
  destruct (read_data_Return _ _ _ Hread) as (Hdv & _ & Hd).
  set (replaced := set_id item (Some item_id)).
  pose proof (update_item_found _ _ _ Hread item_id item idx existing Hm) as H1.
  cbn zeta in H1. fold replaced in H1.
  rewrite write_data_Writable in H1 by congruence. cbn [snd] in H1.
  rewrite H1. cbn [snd].
  set (data' := <[idx := replaced]> data) in *.
  assert (Hr2 : read_data (stored data' w1) = (Return data', stored data' w1)).
  { apply read_data_stored, all_validated_insert; [exact Hdv|].
    unfold replaced. rewrite validated_set_id. exact Hval. }
  assert (Hm2 : first_match data' item_id idx replaced).
  { apply (first_match_insert _ _ _ existing); [exact Hm | reflexivity]. }
  rewrite (update_item_found _ _ _ Hr2 item_id item idx replaced Hm2).
  cbn zeta. fold replaced. unfold data'. rewrite list_insert_insert_eq.
  rewrite write_data_Writable by (cbn; congruence). reflexivity.
Qed.

(** C5 as first stated fails when the write breaks off: the first
    replace answers with the item and leaves a truncated file, which
    the second reads as the empty collection, and answers 404. *)
Lemma update_item_idempotent_counterexample :
  Scenario.widget3 ∈ Scenario.shelf
  /\ id Scenario.widget3 = Some "3"
  /\ fst (PUT_item "3" Scenario.gadget Scenario.crowded)
     = {| status := 200; content := ItemBody (set_id Scenario.gadget (Some "3")) |}
  /\ fst (PUT_item "3" Scenario.gadget
            (snd (PUT_item "3" Scenario.gadget Scenario.crowded)))
     = {| status := 404; content := DetailBody "Item not found" |}.
Proof. repeat split. left. Qed.

Lemma update_item_idempotent_witness :
  update_item "3" Scenario.gadget
    (snd (update_item "3" Scenario.gadget Scenario.stocked))
  = update_item "3" Scenario.gadget Scenario.stocked.
Proof.
  apply (update_item_idempotent Scenario.stocked Scenario.stocked Scenario.shelf
           "3" Scenario.gadget Scenario.widget3).
  - reflexivity.
  - left.
  - reflexivity.
  - reflexivity.
  - reflexivity.
Defined.

(** ** Patching *)

(** C4, with the condition it needs.  When the write of the patch
    reaches the file and a stored item has the path id, the patch goes
    to the first item with that id (the item itself when no other has
    it).  With an empty body the item is returned as it was and the
    file holds the collection as before.  With a body that supplies
    [quantity] alone, as in [{quantity: 5}], the stored item gets that
    quantity and keeps its [name], [description], [price] and [id];
    every other position of the stored list is untouched. *)
Theorem patch_item_frame (w w1 : world) (data : list Item) (item_id : string)
    (e : Item) :
  read_data w = (Return data, w1) ->
  e ∈ data -> id e = Some item_id ->
  disk w = Writable ->
  exists idx existing,
    first_match data item_id idx existing
    /\ ((forall x, x ∈ data -> id x = Some item_id -> x = e) -> existing = e)
    /\ file w = Records data
    /\ patch_item item_id no_fields w = (Return existing, stored data w1)
    /\ file (snd (patch_item item_id no_fields w)) = Records data
    /\ forall q,
        exists updated,
          patch_item item_id (only_quantity q) w
          = (Return updated, stored (<[idx := updated]> data) w1)
          /\ file (snd (patch_item item_id (only_quantity q) w))
             = Records (<[idx := updated]> data)
          /\ <[idx := updated]> data !! idx = Some updated
          /\ quantity updated = q
          /\ name updated = name existing
          /\ description updated = description existing
          /\ price updated = price existing
          /\ id updated = id existing
          /\ (forall j, j <> idx -> <[idx := updated]> data !! j = data !! j)
          /\ length (<[idx := updated]> data) = length data.
Proof.
  intros Hread He Hid Hw.
  destruct (first_match_of_elem _ _ _ He Hid) as (idx & existing & Hm).
  exists idx, existing.
  destruct (read_data_Return _ _ _ Hread) as (_ & Hf & Hd).
  assert (Hlt : (idx < length data)%nat)
    by (destruct Hm as (Hl & _); eapply lookup_lt_Some, Hl).
  assert (Hempty :
    patch_item item_id no_fields w = (Return existing, stored data w1)).
  { rewrite (patch_item_found _ _ _ Hread item_id no_fields idx existing Hm).
    cbn zeta. rewrite copy_update_no_fields.
    rewrite list_insert_id by apply Hm.
    rewrite write_data_Writable by congruence. reflexivity. }
  assert (Hne : data <> []) by (intros ->; cbn in Hlt; lia).
  destruct (read_data_nonempty _ _ _ Hread Hne) as [Hfw _].
  split; [exact Hm|]. split; [|split; [exact Hfw|split; [exact Hempty|split]]].
  - intros Huniq. destruct Hm as (Hl & Hid' & _).
    apply Huniq; [eapply list_elem_of_lookup_2, Hl | exact Hid'].
  - rewrite Hempty. reflexivity.
  - intros q. exists (copy_update existing (only_quantity q)).
    pose proof (patch_item_found _ _ _ Hread item_id (only_quantity q) idx existing Hm)
      as Hp.
    cbn zeta in Hp. rewrite write_data_Writable in Hp by congruence.
    cbn [snd] in Hp. repeat split.
    + exact Hp.
    + rewrite Hp. reflexivity.
    + apply list_lookup_insert_eq, Hlt.
    + intros j Hj. apply list_lookup_insert_ne. congruence.
    + apply length_insert.
Qed.

(** C4 as first stated fails when the write breaks off: the empty
    patch answers 200 with the item, the file is left truncated, and
    neither the item nor its neighbour is found afterwards. *)
Lemma patch_item_frame_counterexample :
  Scenario.widget3 ∈ Scenario.shelf
  /\ id Scenario.widget3 = Some "3"
  /\ fst (PATCH_item "3" no_fields Scenario.crowded)
     = {| status := 200; content := ItemBody Scenario.widget3 |}
  /\ file (snd (PATCH_item "3" no_fields Scenario.crowded))
     = Malformed "Expecting value"
  /\ fst (GET_item "3" (snd (PATCH_item "3" no_fields Scenario.crowded)))
     = {| status := 404; content := DetailBody "Item not found" |}
  /\ fst (GET_item "10" (snd (PATCH_item "3" no_fields Scenario.crowded)))
     = {| status := 404; content := DetailBody "Item not found" |}.
Proof. repeat split. left. Qed.

Lemma patch_item_frame_witness :
  read_data Scenario.stocked = (Return Scenario.shelf, Scenario.stocked)
  /\ Scenario.gadget10 ∈ Scenario.shelf
  /\ id Scenario.gadget10 = Some "10"
  /\ disk Scenario.stocked = Writable
  /\ exists idx existing,
       first_match Scenario.shelf "10" idx existing
       /\ patch_item "10" no_fields Scenario.stocked
          = (Return existing, stored Scenario.shelf Scenario.stocked)
       /\ exists updated,
            patch_item "10" (only_quantity (Some 5)) Scenario.stocked
            = (Return updated,
               stored (<[idx := updated]> Scenario.shelf) Scenario.stocked)
            /\ quantity updated = Some 5
            /\ name updated = name existing
            /\ description updated = description existing
            /\ price updated = price existing
            /\ id updated = id existing.
Proof.
  assert (Scenario.gadget10 ∈ Scenario.shelf) as Hin.
  { unfold Scenario.shelf. apply list_elem_of_further, list_elem_of_here. }
  split; [reflexivity|]. split; [exact Hin|]. split; [reflexivity|].
  split; [reflexivity|].
  destruct (patch_item_frame Scenario.stocked Scenario.stocked Scenario.shelf
              "10" Scenario.gadget10 eq_refl Hin eq_refl eq_refl)
    as (idx & existing & Hm & _ & _ & Hempty & _ & Hq).
  exists idx, existing. split; [exact Hm|]. split; [exact Hempty|].
  destruct (Hq (Some 5)) as (updated & Hp & _ & _ & H1 & H2 & H3 & H4 & H5 & _).
  exists updated. repeat split; assumption.
Defined.

(** C10. A patch tells a field supplied as [null] from a field left out.
    When a stored item has the path id, then for the first item with
    that id (the item itself when no other has it) and for each of
    [name], [description], [price] and [quantity]: when the body
    supplies the field as [null], the stored item gets [null] there,
    also where the class [Item] requires a value; when the body leaves
    the field out, the stored item keeps its value. *)
Theorem patch_item_null_overwrites (w w1 : world) (data : list Item)
    (item_id : string) (e : Item) (item_update : ItemUpdate) :
  read_data w = (Return data, w1) ->
  e ∈ data -> id e = Some item_id ->
  exists idx existing updated,
    first_match data item_id idx existing
    /\ ((forall x, x ∈ data -> id x = Some item_id -> x = e) -> existing = e)
    /\ patch_item item_id item_update w
       = (Return updated, snd (write_data (<[idx := updated]> data) w1))
    /\ <[idx := updated]> data !! idx = Some updated
    /\ (disk w = Writable ->
        file (snd (patch_item item_id item_update w))
        = Records (<[idx := updated]> data))
    /\ (upd_name item_update = Supplied None -> name updated = None)
    /\ (upd_description item_update = Supplied None -> description updated = None)
    /\ (upd_price item_update = Supplied None -> price updated = None)
    /\ (upd_quantity item_update = Supplied None -> quantity updated = None)
    /\ (upd_name item_update = Unset -> name updated = name existing)
    /\ (upd_description item_update = Unset ->
        description updated = description existing)
    /\ (upd_price item_update = Unset -> price updated = price existing)
    /\ (upd_quantity item_update = Unset -> quantity updated = quantity existing).
Proof.
  intros Hread He Hid.
  destruct (first_match_of_elem _ _ _ He Hid) as (idx & existing & Hm).
  destruct (read_data_Return _ _ _ Hread) as (_ & _ & Hd).
  exists idx, existing, (copy_update existing item_update).
  pose proof (patch_item_found _ _ _ Hread item_id item_update idx existing Hm) as Hp.
  cbn zeta in Hp.
  split; [exact Hm|]. split.
  { intros Huniq. destruct Hm as (Hl & Hid' & _).
    apply Huniq; [eapply list_elem_of_lookup_2, Hl | exact Hid']. }
  split; [exact Hp|]. split.
  { apply list_lookup_insert_eq. destruct Hm as (Hl & _).
    eapply lookup_lt_Some, Hl. }
  split.
  { intros Hw. rewrite Hp. cbn [snd].
    rewrite write_data_Writable by congruence. reflexivity. }
  repeat split; intros H; cbn; rewrite H; reflexivity.
Qed.

Lemma patch_item_null_overwrites_witness :
  exists idx existing updated,
    first_match Scenario.shelf "10" idx existing
    /\ patch_item "10"
         {| upd_name := Supplied None; upd_description := Unset;
            upd_price := Unset; upd_quantity := Unset |}
         Scenario.stocked
       = (Return updated,
          snd (write_data (<[idx := updated]> Scenario.shelf) Scenario.stocked))
    /\ name updated = None
    /\ price updated = price existing.
Proof.
  destruct (patch_item_null_overwrites Scenario.stocked Scenario.stocked
              Scenario.shelf "10" Scenario.gadget10
              {| upd_name := Supplied None; upd_description := Unset;
                 upd_price := Unset; upd_quantity := Unset |}
              eq_refl
              (list_elem_of_further _ _ _ (list_elem_of_here _ _)) eq_refl)
    as (idx & existing & updated & Hm & _ & Hp & _ & _ & Hname & _ & _ & _ & _ & _
        & Hprice & _).
  exists idx, existing, updated.
  split; [exact Hm|]. split; [exact Hp|].
  split; [exact (Hname eq_refl) | exact (Hprice eq_refl)].
Defined.

(** What follows for the next request: a required field patched to
    [null] is written to the file, and the next read of the file fails
    in validation. *)
Lemma patch_null_name_then_read (w w1 : world) (data : list Item)
    (item_id : string) (idx : nat) (existing : Item) (item_update : ItemUpdate) :
  read_data w = (Return data, w1) ->
  first_match data item_id idx existing ->
  disk w = Writable ->
  upd_name item_update = Supplied None ->
  fst (read_data (snd (patch_item item_id item_update w))) = Raise ValidationError.
Proof.
  intros Hread Hm Hw Hn.
  destruct (read_data_Return _ _ _ Hread) as (_ & _ & Hd).
  rewrite (patch_item_found _ _ _ Hread item_id item_update idx existing Hm).
  cbn [snd]. rewrite write_data_Writable by congruence.
  rewrite (read_data_Records _ (<[idx := copy_update existing item_update]> data))
    by reflexivity.
  destruct (forallb validated _) eqn:Hv; [|reflexivity].
  apply all_validated in Hv.
  assert (Hl : <[idx := copy_update existing item_update]> data !! idx
               = Some (copy_update existing item_update)).
  { apply list_lookup_insert_eq. destruct Hm as (Hl & _).
    eapply lookup_lt_Some, Hl. }
  apply (Forall_lookup_1 _ _ _ _ Hv) in Hl.
  unfold validated, copy_update in Hl. cbn in Hl. rewrite Hn in Hl.
  discriminate.
Qed.

(** ** Deleting *)

(** C7. [delete_item] keeps exactly the items whose id is not the path
    id, in their order.  It answers 404 exactly when no item matched,
    which is when the kept list is as long as the original; then
    [write_data] is not called and the file is as it was.  Otherwise the
    kept list is handed to [write_data] and the answer is 204 without a
    body. *)
Theorem delete_item_filters (w w1 : world) (data : list Item) (item_id : string) :
  read_data w = (Return data, w1) ->
  let new_data := filter (fun item => id item <> Some item_id) data in
  (forall x, x ∈ new_data <-> x ∈ data /\ id x <> Some item_id)
  /\ new_data `sublist_of` data
  /\ (no_match data item_id <-> length new_data = length data)
  /\ (status (fst (DELETE_item item_id w)) = 404 <-> no_match data item_id)
  /\ (no_match data item_id ->
      DELETE_item item_id w
      = ({| status := 404; content := DetailBody "Item not found" |}, w1)
      /\ file w1 = file w)
  /\ (~ no_match data item_id ->
      DELETE_item item_id w
      = ({| status := 204; content := NoBody |}, snd (write_data new_data w1))
      /\ (disk w = Writable ->
          file (snd (DELETE_item item_id w)) = Records new_data)).
Proof.
  intros Hread new_data.
  destruct (read_data_Return _ _ _ Hread) as (_ & Hf & Hd).
  pose proof (DELETE_item_no_match _ _ _ item_id Hread) as H404.
  pose proof (DELETE_item_match _ _ _ item_id Hread) as H204.
  fold new_data in H204.
  split; [|split; [|split; [|split; [|split]]]].
  - intros x. unfold new_data. rewrite list_elem_of_filter. tauto.
  - apply sublist_filter.
  - apply filter_keeps_all.
  - split.
    + intros Hs. destruct (decide (no_match data item_id)) as [Hno|Hsome]; [exact Hno|].
      rewrite (H204 Hsome) in Hs. discriminate.
    + intros Hno. rewrite (H404 Hno). reflexivity.
  - intros Hno. split; [exact (H404 Hno) | exact Hf].
  - intros Hsome. split; [exact (H204 Hsome)|].
    intros Hw. rewrite (H204 Hsome). cbn [snd].
    rewrite write_data_Writable by congruence. reflexivity.
Qed.

Lemma delete_item_filters_witness :
  read_data Scenario.stocked = (Return Scenario.shelf, Scenario.stocked)
  /\ (status (fst (DELETE_item "3" Scenario.stocked)) = 404
      <-> no_match Scenario.shelf "3")
  /\ (status (fst (DELETE_item "4" Scenario.stocked)) = 404
      <-> no_match Scenario.shelf "4").
Proof.
  split; [reflexivity|]. split.
  - destruct (delete_item_filters Scenario.stocked Scenario.stocked Scenario.shelf
                "3" eq_refl) as (_ & _ & _ & H & _).
    exact H.
  - destruct (delete_item_filters Scenario.stocked Scenario.stocked Scenario.shelf
                "4" eq_refl) as (_ & _ & _ & H & _).
    exact H.
Defined.

(** C8, with the condition it needs.  Deleting is final when its write
    reaches the file: when a delete of an id answers 204, a get of the
    same id, right after, answers 404. *)
Theorem get_after_delete (w w2 : world) (item_id : string) (r : response) :
  disk w = Writable ->
  DELETE_item item_id w = (r, w2) ->
  status r = 204 ->
  GET_item item_id w2
  = ({| status := 404; content := DetailBody "Item not found" |}, w2).
Proof.
  intros Hw Hdel Hs.
  destruct (read_data w) as [[data|x] w1] eqn:Hread.
  - destruct (read_data_Return _ _ _ Hread) as (Hdv & _ & Hd).
    destruct (decide (no_match data item_id)) as [Hno|Hsome].
    + rewrite (DELETE_item_no_match _ _ _ item_id Hread Hno) in Hdel.
      injection Hdel as <- <-. discriminate.
    + rewrite (DELETE_item_match _ _ _ item_id Hread Hsome) in Hdel.
      rewrite write_data_Writable in Hdel by congruence.
      injection Hdel as <- <-.
      set (new_data := filter (fun item => id item <> Some item_id) data).
      assert (Hr2 : read_data (stored new_data w1)
                    = (Return new_data, stored new_data w1)).
      { apply read_data_stored, all_validated_filter, Hdv. }
      unfold GET_item, respond.
      rewrite (get_item_not_found _ _ _ Hr2 item_id (filter_no_match _ _)).
      reflexivity.
  - unfold DELETE_item, delete_item in Hdel.
    rewrite (respond_read_raises _ _ _ _ _ _ Hread) in Hdel.
    injection Hdel as <- <-. discriminate.
Qed.

(** C8 as first stated fails when the write does not reach the file:
    [write_data] prints the I/O error and returns, the delete answers
    204, and the item is still there for the get. *)
Lemma get_after_delete_counterexample :
  fst (DELETE_item "3" Scenario.locked) = {| status := 204; content := NoBody |}
  /\ fst (GET_item "3" (snd (DELETE_item "3" Scenario.locked)))
     = {| status := 200; content := ItemBody Scenario.widget3 |}
  /\ stdout (snd (DELETE_item "3" Scenario.locked))
     = ["Error writing to data.json: Read-only file system"].
Proof. repeat split. Qed.

Lemma get_after_delete_witness :
  status (fst (DELETE_item "3" Scenario.stocked)) = 204
  /\ GET_item "3" (snd (DELETE_item "3" Scenario.stocked))
     = ({| status := 404; content := DetailBody "Item not found" |},
        snd (DELETE_item "3" Scenario.stocked)).
Proof.
  split; [reflexivity|].
  exact (get_after_delete Scenario.stocked (snd (DELETE_item "3" Scenario.stocked))
           "3" (fst (DELETE_item "3" Scenario.stocked)) eq_refl eq_refl eq_refl).
Defined.

(** * Part V. Further properties of the helpers and the handlers *)

(** ** What an outcome depends on *)

Lemma read_data_world (w w1 : world) (o : outcome (list Item)) :
  read_data w = (o, w1) -> file w1 = file w /\ disk w1 = disk w.
Proof.
  intros H. destruct o as [data|x].
  - destruct (read_data_Return _ _ _ H) as (_ & Hf & Hd). auto.
  - destruct (read_data_raises _ _ _ H) as (-> & _). auto.
Qed.

Lemma read_data_same_file (w w' : world) :
  file w = file w' -> fst (read_data w) = fst (read_data w').
Proof.
  intros E. destruct (file w) as [|e|e|docs|e|docs] eqn:Hf; symmetry in E.
  - rewrite (read_data_Missing _ Hf), (read_data_Missing _ E). reflexivity.
  - rewrite (read_data_Unreadable _ _ Hf), (read_data_Unreadable _ _ E). reflexivity.
  - rewrite (read_data_Malformed _ _ Hf), (read_data_Malformed _ _ E). reflexivity.
  - rewrite (read_data_Records _ _ Hf), (read_data_Records _ _ E).
    destruct (forallb validated docs); reflexivity.
  - rewrite (read_data_Undecodable _ _ Hf), (read_data_Undecodable _ _ E).
    reflexivity.
  - rewrite (read_data_Misshapen _ _ Hf), (read_data_Misshapen _ _ E).
    destruct (forallb validated docs); reflexivity.
Qed.

Lemma world_blind_ret {A} (a : A) : world_blind (ret a).
Proof. intros w w'. reflexivity. Qed.

Lemma world_blind_raise {A} (e : exn) : world_blind (@raise A e).
Proof. intros w w'. reflexivity. Qed.

Lemma world_blind_bind {A B} (m : py A) (k : A -> py B) :
  world_blind m -> (forall a, world_blind (k a)) -> world_blind (bind m k).
Proof.
  intros Hm Hk w w'. unfold bind. specialize (Hm w w').
  destruct (m w) as [o w1], (m w') as [o' w1']. cbn in Hm. subst o'.
  destruct o as [a|e]; [apply Hk | reflexivity].
Qed.

Lemma world_blind_for_each {A B} (f : A -> py B) (l : list A) :
  (forall x, world_blind (f x)) -> world_blind (for_each f l).
Proof.
  intros Hf. induction l as [|x l IH]; cbn [for_each].
  - apply world_blind_ret.
  - apply world_blind_bind; [apply Hf|]. intros y.
    apply world_blind_bind; [exact IH|]. intros ys. apply world_blind_ret.
Qed.

Lemma world_blind_int_of_id (e : Item) : world_blind (int_of_id e).
Proof.
  intros w w'. unfold int_of_id.
  destruct (id e) as [s|]; [destruct (Py.int_of_str s)|]; reflexivity.
Qed.

Lemma world_blind_write_data (data : list Item) : world_blind (write_data data).
Proof. intros w w'. rewrite !write_data_Return. reflexivity. Qed.

Lemma world_blind_write_then {A} (data : list Item) (a : A) :
  world_blind (write_data data ;;; ret a).
Proof.
  apply world_blind_bind; [apply world_blind_write_data|].
  intros _. apply world_blind_ret.
Qed.

(** After the read, the outcome is settled by what was read. *)
Lemma blind_after_read {A} (k : list Item -> py A) :
  (forall data, world_blind (k data)) ->
  forall w w', file w = file w' ->
  fst (bind read_data k w) = fst (bind read_data k w').
Proof.
  intros Hk w w' E. unfold bind.
  pose proof (read_data_same_file w w' E) as Hr.
  destruct (read_data w) as [o w1], (read_data w') as [o' w1'].
  cbn in Hr. subst o'. destruct o as [data|x]; [apply Hk | reflexivity].
Qed.

Lemma respond_fst {A} (status_code : Z) (response_model : A -> body)
    (handler : py A) (w w' : world) :
  fst (handler w) = fst (handler w') ->
  fst (respond status_code response_model handler w)
  = fst (respond status_code response_model handler w').
Proof.
  intros H. unfold respond.
  destruct (handler w) as [o w1], (handler w') as [o' w1'].
  cbn in H. subst o'. destruct o as [a|e].
  - reflexivity.
  - destruct e; reflexivity.
Qed.

Lemma respond_snd {A} (status_code : Z) (response_model : A -> body)
    (handler : py A) (w : world) :
  snd (respond status_code response_model handler w) = snd (handler w).
Proof.
  unfold respond. destruct (handler w) as [o w1]. destruct o as [a|e].
  - reflexivity.
  - destruct e; reflexivity.
Qed.

Lemma bind_Raise {A B} (m : py A) (k : A -> py B) (w w1 : world) (x : exn) :
  m w = (Raise x, w1) -> bind m k w = (Raise x, w1).
Proof. intros H. unfold bind. rewrite H. reflexivity. Qed.

Lemma read_data_validated (w w1 : world) (data : list Item) :
  read_data w = (Return data, w1) -> forallb validated data = true.
Proof. intros H. apply (read_data_Return _ _ _ H). Qed.

(** ** Reading routes *)

(** X1. The two reading routes leave the world as [read_data] leaves it:
    the file and the medium are as before the request, whatever the
    file holds and whether or not the id is found. *)
Theorem get_routes_only_read (w : world) (item_id : string) :
  snd (GET_items w) = snd (read_data w)
  /\ snd (GET_item item_id w) = snd (read_data w)
  /\ file (snd (read_data w)) = file w
  /\ disk (snd (read_data w)) = disk w.
Proof.
  unfold GET_items, GET_item. rewrite !respond_snd.
  unfold get_items, get_item, bind.
  destruct (read_data w) as [o w1] eqn:Hr.
  destruct (read_data_world _ _ _ Hr) as [Hf Hd]. cbn [snd].
  repeat split; try assumption;
    (destruct o as [data|x]; [|reflexivity]);
    try destruct (list_find _ data) as [[idx existing]|]; reflexivity.
Qed.

Lemma GET_items_Records (w : world) (docs : list Item) :
  file w = Records docs ->
  status (fst (GET_items w)) = if forallb validated docs then 200 else 500.
Proof.
  intros Hf. unfold GET_items, respond, get_items.
  rewrite (read_data_Records _ _ Hf).
  destruct (forallb validated docs); reflexivity.
Qed.

(** X2. [GET /items] answers 500 exactly when [read_data] raises: for a
    file that is not UTF-8, for JSON that is not an array of objects,
    and for an array with an object that lacks a value [Item] requires.
    For a file that is absent, cannot be read, is not JSON, or holds an
    array of valid records it answers 200. *)
Theorem GET_items_status (w : world) :
  status (fst (GET_items w))
  = match file w with
    | Missing | Unreadable _ | Malformed _ => 200
    | Records docs => if forallb validated docs then 200 else 500
    | Undecodable _ | Misshapen _ => 500
    end.
Proof.
  destruct (file w) as [|e|e|docs|e|docs] eqn:Hf;
    [| | |exact (GET_items_Records _ _ Hf)| |];
    unfold GET_items, respond, get_items.
  - rewrite (read_data_Missing _ Hf). reflexivity.
  - rewrite (read_data_Unreadable _ _ Hf). reflexivity.
  - rewrite (read_data_Malformed _ _ Hf). reflexivity.
  - rewrite (read_data_Undecodable _ _ Hf). reflexivity.
  - rewrite (read_data_Misshapen _ _ Hf).
    destruct (forallb validated docs); reflexivity.
Qed.

(** ** Writing and reading back *)


(** ** Responses and the medium *)

(** X4. The response to a request is settled by the file alone: two worlds
    with the same file give the same response on every route, whether
    the medium takes the write or not.  A client cannot tell from the
    response that a write was lost. *)
Theorem responses_ignore_medium (w w' : world) (item_id : string)
    (item : Item) (item_update : ItemUpdate) :
  file w = file w' ->
  fst (GET_items w) = fst (GET_items w')
  /\ fst (GET_item item_id w) = fst (GET_item item_id w')
  /\ fst (POST_items item w) = fst (POST_items item w')
  /\ fst (PUT_item item_id item w) = fst (PUT_item item_id item w')
  /\ fst (PATCH_item item_id item_update w) = fst (PATCH_item item_id item_update w')
  /\ fst (DELETE_item item_id w) = fst (DELETE_item item_id w').
Proof.
  intros E.
  unfold GET_items, GET_item, POST_items, PUT_item, PATCH_item, DELETE_item.
  repeat split; apply respond_fst.
  - unfold get_items. apply read_data_same_file, E.
  - unfold get_item. apply blind_after_read; [|exact E].
    intros data. destruct (list_find _ data) as [[idx existing]|];
      [apply world_blind_ret | apply world_blind_raise].
  - unfold create_item. apply blind_after_read; [|exact E].
    intros data. apply world_blind_bind.
    + apply world_blind_for_each, world_blind_int_of_id.
    + intros ids. apply world_blind_write_then.
  - unfold update_item. apply blind_after_read; [|exact E].
    intros data. destruct (list_find _ data) as [[idx existing]|];
      [apply world_blind_write_then | apply world_blind_raise].
  - unfold patch_item. apply blind_after_read; [|exact E].
    intros data. destruct (list_find _ data) as [[idx existing]|];
      [apply world_blind_write_then | apply world_blind_raise].
  - unfold delete_item. apply blind_after_read; [|exact E].
    intros data. destruct (_ =? _)%nat;
      [apply world_blind_raise | apply world_blind_write_then].
Qed.

Lemma responses_ignore_medium_witness :
  file Scenario.stocked = file Scenario.locked
  /\ fst (POST_items Scenario.widget Scenario.stocked)
     = fst (POST_items Scenario.widget Scenario.locked)
  /\ status (fst (POST_items Scenario.widget Scenario.locked)) = 200
  /\ file (snd (POST_items Scenario.widget Scenario.locked)) = Records Scenario.shelf.
Proof.
  split; [reflexivity|]. split; [|split; reflexivity].
  exact (proj1 (proj2 (proj2
    (responses_ignore_medium Scenario.stocked Scenario.locked "3"
       Scenario.widget Scenario.null_name eq_refl)))).
Defined.

(** ** Numbering *)

Lemma id_number_set_id (item : Item) (n : Z) :
  id_number (set_id item (Some (Py.str n))) = Some n.
Proof. unfold id_number. cbn. apply PyFacts.int_of_str_str. Qed.

Lemma id_numbers_snoc (data : list Item) (ns : list Z) (c : Item) (n : Z) :
  id_numbers data = Some ns -> id_number c = Some n ->
  id_numbers (data ++ [c])%list = Some (ns ++ [n])%list.
Proof.
  unfold id_numbers. rewrite !mapM_Some. intros H Hc.
  apply Forall2_app; [exact H|]. constructor; [exact Hc | constructor].
Qed.

Lemma below_next (ns : list Z) :
  Forall (fun n => n < Py.max ns 0 + 1) ns.
Proof.
  destruct (PyFacts.max_spec ns 0) as [[-> _]|[_ Hle]]; [constructor|].
  eapply Forall_impl; [exact Hle|]. cbn. intros n Hn. lia.
Qed.


Lemma filter_no_match_all (data : list Item) (item_id : string) :
  no_match data item_id ->
  filter (fun item => id item <> Some item_id) data = data.
Proof.
  unfold no_match. intros H. induction H as [|x l Hx _ IH]; [reflexivity|].
  rewrite filter_cons_True by exact Hx. rewrite IH. reflexivity.
Qed.


Lemma all_validated_snoc (data : list Item) (c : Item) :
  forallb validated data = true -> validated c = true ->
  forallb validated (data ++ [c])%list = true.
Proof.
  intros Hd Hc. rewrite forallb_app, Hd. cbn. rewrite Hc. reflexivity.
Qed.

(** What the world is after a creation on a medium that takes the
    write, and what a read then gives. *)
Lemma create_item_Writable (w w1 : world) (data : list Item) (ns : list Z)
    (item : Item) :
  read_data w = (Return data, w1) ->
  id_numbers data = Some ns ->
  disk w = Writable ->
  let created := set_id item (Some (Py.str (Py.max ns 0 + 1))) in
  create_item item w = (Return created, stored (data ++ [created])%list w1)
  /\ (validated item = true ->
      read_data (stored (data ++ [created])%list w1)
      = (Return (data ++ [created])%list, stored (data ++ [created])%list w1)).
Proof.
  intros Hread Hns Hd. cbn zeta.
  destruct (read_data_world _ _ _ Hread) as [_ Hd1]. rewrite Hd in Hd1.
  split.
  - pose proof (create_item_numbered _ _ _ Hread item _ Hns) as Hc.
    cbn zeta in Hc. rewrite Hc, (write_data_Writable _ _ Hd1). reflexivity.
  - intros Hv. apply read_data_stored, all_validated_snoc.
    + exact (read_data_validated _ _ _ Hread).
    + exact Hv.
Qed.

(** X5. When opening or reading the file fails with an I/O error, or
    its text is not JSON, a creation on a medium that takes the write
    starts the collection anew: one diagnostic is printed, the item
    gets the id 1 and the file is replaced by the one-item list, so
    whatever the file held is gone.  When the file is not UTF-8, or
    holds JSON that is not an array of objects, the creation raises
    instead and the file stays as it is. *)
Theorem create_item_over_damaged_file (w : world) (e : string) (item : Item) :
  (file w = Unreadable e \/ file w = Malformed e ->
   disk w = Writable ->
   create_item item w
   = (Return (set_id item (Some "1")),
      stored [set_id item (Some "1")] (logged (read_error e) w)))
  /\ (file w = Undecodable e ->
      create_item item w = (Raise (UnicodeDecodeError e), w))
  /\ (forall docs, file w = Misshapen docs ->
      exists x, create_item item w = (Raise x, w)
                /\ (x = TypeError \/ x = ValidationError)).
Proof.
  split; [|split].
  - intros Hf Hd.
    assert (read_data w = (Return [], logged (read_error e) w)) as Hread.
    { destruct Hf as [Hf|Hf];
        [apply read_data_Unreadable | apply read_data_Malformed]; exact Hf. }
    destruct (create_item_Writable _ _ _ [] item Hread eq_refl Hd) as [Hc _].
    exact Hc.
  - intros Hf. unfold create_item.
    apply bind_Raise, read_data_Undecodable, Hf.
  - intros docs Hf. pose proof (read_data_Misshapen _ _ Hf) as Hr.
    unfold create_item.
    destruct (forallb validated docs);
      [exists TypeError | exists ValidationError];
      (split; [apply bind_Raise, Hr | auto]).
Qed.

Lemma create_item_over_damaged_file_witness :
  (file Scenario.garbled = Unreadable "Expecting value"
   \/ file Scenario.garbled = Malformed "Expecting value")
  /\ disk Scenario.garbled = Writable
  /\ create_item Scenario.widget Scenario.garbled
     = (Return Scenario.widget1,
        stored [Scenario.widget1]
          (logged (read_error "Expecting value") Scenario.garbled))
  /\ file Scenario.binary = Undecodable "invalid start byte"
  /\ create_item Scenario.widget Scenario.binary
     = (Raise (UnicodeDecodeError "invalid start byte"), Scenario.binary).
Proof.
  split; [right; reflexivity|]. split; [reflexivity|]. split.
  - exact (proj1 (create_item_over_damaged_file Scenario.garbled
                    "Expecting value" Scenario.widget)
             (or_intror eq_refl) eq_refl).
  - split; [reflexivity|].
    exact (proj1 (proj2 (create_item_over_damaged_file Scenario.binary
                           "invalid start byte" Scenario.widget))
             eq_refl).
Defined.

Lemma ids_of_snoc (data : list Item) (c : Item) :
  ids_of (data ++ [c]) = (ids_of data ++ [id c])%list.
Proof. unfold ids_of. rewrite fmap_app. reflexivity. Qed.

Lemma ids_distinct_snoc (data : list Item) (c : Item) (item_id : string) :
  NoDup (ids_of data) -> no_match data item_id -> id c = Some item_id ->
  NoDup (ids_of (data ++ [c])).
Proof.
  intros Hnd Hno Hc. rewrite ids_of_snoc, Hc. apply NoDup_app.
  split; [exact Hnd|]. split; [|apply NoDup_singleton].
  intros x Hx Hin. apply list_elem_of_singleton in Hin. subst x.
  apply list_elem_of_fmap in Hx as (e & He & Hin).
  unfold no_match in Hno. rewrite Forall_forall in Hno.
  exact (Hno e Hin (eq_sym He)).
Qed.

Lemma shelf_ids_distinct : NoDup (ids_of Scenario.shelf).
Proof.
  unfold ids_of. cbn. apply NoDup_cons. split.
  - intros H. apply list_elem_of_singleton in H. discriminate.
  - apply NoDup_singleton.
Qed.

(** X6. Creation keeps the ids distinct and numeric: when the stored ids
    are pairwise different and all read as integers, so are the ids of
    the list handed to [write_data], and the number of the new id is
    above every stored one. *)
Theorem create_item_keeps_ids_distinct (w w1 : world) (data : list Item)
    (ns : list Z) (item : Item) :
  read_data w = (Return data, w1) ->
  id_numbers data = Some ns ->
  NoDup (ids_of data) ->
  exists created m,
    create_item item w
    = (Return created, snd (write_data (data ++ [created]) w1))
    /\ id_numbers (data ++ [created]) = Some (ns ++ [m])%list
    /\ Forall (fun n => n < m) ns
    /\ NoDup (ids_of (data ++ [created])).
Proof.
  intros Hread Hns Hnd.
  exists (set_id item (Some (Py.str (Py.max ns 0 + 1)))), (Py.max ns 0 + 1).
  split; [|split; [|split]].
  - exact (create_item_numbered _ _ _ Hread item _ Hns).
  - apply id_numbers_snoc; [exact Hns | apply id_number_set_id].
  - apply below_next.
  - eapply ids_distinct_snoc;
      [exact Hnd | apply next_id_fresh, Hns | reflexivity].
Qed.

Lemma create_item_keeps_ids_distinct_witness :
  read_data Scenario.stocked = (Return Scenario.shelf, Scenario.stocked)
  /\ id_numbers Scenario.shelf = Some [3; 10]
  /\ NoDup (ids_of Scenario.shelf)
  /\ exists created m,
       create_item Scenario.gadget Scenario.stocked
       = (Return created,
          snd (write_data (Scenario.shelf ++ [created]) Scenario.stocked))
       /\ id_numbers (Scenario.shelf ++ [created]) = Some ([3; 10] ++ [m])%list
       /\ Forall (fun n => n < m) [3; 10]
       /\ NoDup (ids_of (Scenario.shelf ++ [created])).
Proof.
  split; [reflexivity|]. split; [reflexivity|].
  split; [exact shelf_ids_distinct|].
  exact (create_item_keeps_ids_distinct Scenario.stocked Scenario.stocked
           Scenario.shelf [3; 10] Scenario.gadget eq_refl eq_refl
           shelf_ids_distinct).
Defined.





(** ** Replacing and patching *)

Lemma ids_of_insert (data : list Item) (idx : nat) (existing x : Item) :
  data !! idx = Some existing -> id x = id existing ->
  ids_of (<[idx := x]> data) = ids_of data.
Proof.
  intros Hl Hx. unfold ids_of. rewrite list_fmap_insert, Hx.
  apply list_insert_id. rewrite list_lookup_fmap, Hl. reflexivity.
Qed.

Lemma validated_copy_update (existing : Item) (item_update : ItemUpdate) :
  validated existing = true ->
  validated (copy_update existing item_update) = negb (nulls_required item_update).
Proof.
  unfold validated, copy_update, nulls_required. cbn.
  destruct (name existing), (price existing), (quantity existing);
    try discriminate. intros _.
  destruct (upd_name item_update) as [|[?|]],
           (upd_price item_update) as [|[?|]],
           (upd_quantity item_update) as [|[?|]]; reflexivity.
Qed.

Lemma validated_of_lookup (data : list Item) (idx : nat) (x : Item) :
  forallb validated data = true -> data !! idx = Some x -> validated x = true.
Proof.
  rewrite all_validated. intros H Hl. exact (Forall_lookup_1 _ _ _ _ H Hl).
Qed.

Lemma invalid_insert (data : list Item) (idx : nat) (existing x : Item) :
  data !! idx = Some existing -> validated x = false ->
  forallb validated (<[idx := x]> data) = false.
Proof.
  intros Hl Hx. destruct (forallb validated _) eqn:Hv; [|reflexivity].
  assert (<[idx := x]> data !! idx = Some x) as Hi.
  { apply list_lookup_insert_eq. eapply lookup_lt_Some, Hl. }
  rewrite (validated_of_lookup _ _ _ Hv Hi) in Hx. discriminate.
Qed.

(** The world after a replacement or a patch of a stored item on a
    medium that takes the write. *)
Lemma update_item_Writable (w w1 : world) (data : list Item)
    (item_id : string) (item : Item) (idx : nat) (existing : Item) :
  read_data w = (Return data, w1) ->
  first_match data item_id idx existing ->
  disk w = Writable ->
  update_item item_id item w
  = (Return (set_id item (Some item_id)),
     stored (<[idx := set_id item (Some item_id)]> data) w1).
Proof.
  intros Hread Hm Hd.
  destruct (read_data_world _ _ _ Hread) as [_ Hd1]. rewrite Hd in Hd1.
  pose proof (update_item_found _ _ _ Hread item_id item idx existing Hm) as H.
  cbn zeta in H. rewrite H, (write_data_Writable _ _ Hd1). reflexivity.
Qed.

Lemma patch_item_Writable (w w1 : world) (data : list Item)
    (item_id : string) (item_update : ItemUpdate) (idx : nat) (existing : Item) :
  read_data w = (Return data, w1) ->
  first_match data item_id idx existing ->
  disk w = Writable ->
  patch_item item_id item_update w
  = (Return (copy_update existing item_update),
     stored (<[idx := copy_update existing item_update]> data) w1).
Proof.
  intros Hread Hm Hd.
  destruct (read_data_world _ _ _ Hread) as [_ Hd1]. rewrite Hd in Hd1.
  pose proof (patch_item_found _ _ _ Hread item_id item_update idx existing Hm)
    as H.
  cbn zeta in H. rewrite H, (write_data_Writable _ _ Hd1). reflexivity.
Qed.

(** X9. After a replacement of a stored item on a medium that takes the
    write, a lookup of the same id finds the payload under the path id,
    answers 200 with the same body as the replacement, and changes
    nothing.  The body is that item when its price is a finite number;
    a price that is not is sent as [null]. *)
Theorem get_after_update (w w1 : world) (data : list Item) (item_id : string)
    (item e : Item) :
  read_data w = (Return data, w1) ->
  e ∈ data -> id e = Some item_id ->
  disk w = Writable ->
  validated item = true ->
  let replaced := set_id item (Some item_id) in
  let w2 := snd (PUT_item item_id item w) in
  fst (PUT_item item_id item w)
  = {| status := 200; content := ItemBody (json_of_Item replaced) |}
  /\ get_item item_id w2 = (Return replaced, w2)
  /\ GET_item item_id w2
     = ({| status := 200; content := ItemBody (json_of_Item replaced) |}, w2)
  /\ (finite (price item) -> json_of_Item replaced = replaced).
Proof.
  intros Hread He Hid Hd Hv replaced w2.
  destruct (first_match_of_elem _ _ _ He Hid) as (idx & existing & Hm).
  pose proof (update_item_Writable _ _ _ _ item _ _ Hread Hm Hd) as Hu.
  fold replaced in Hu.
  assert (PUT_item item_id item w
          = ({| status := 200; content := ItemBody (json_of_Item replaced) |},
             stored (<[idx := replaced]> data) w1)) as HP.
  { unfold PUT_item, respond. rewrite Hu. reflexivity. }
  assert (w2 = stored (<[idx := replaced]> data) w1) as E2.
  { unfold w2. rewrite HP. reflexivity. }
  assert (read_data w2 = (Return (<[idx := replaced]> data), w2)) as Hback.
  { rewrite E2. apply read_data_stored, all_validated_insert.
    - exact (read_data_validated _ _ _ Hread).
    - exact Hv. }
  assert (get_item item_id w2 = (Return replaced, w2)) as Hg.
  { apply (get_item_found _ _ _ Hback item_id idx replaced).
    apply first_match_insert with (existing := existing);
      [exact Hm | reflexivity]. }
  split; [rewrite HP; reflexivity|]. split; [exact Hg|]. split.
  - unfold GET_item, respond. rewrite Hg. reflexivity.
  - intros Hfin. unfold json_of_Item, replaced. cbn.
    unfold finite in Hfin. rewrite Hfin. reflexivity.
Qed.

Lemma get_after_update_witness :
  read_data Scenario.stocked = (Return Scenario.shelf, Scenario.stocked)
  /\ Scenario.gadget10 ∈ Scenario.shelf
  /\ id Scenario.gadget10 = Some "10"
  /\ disk Scenario.stocked = Writable
  /\ validated Scenario.gem = true
  /\ fst (PUT_item "10" Scenario.gem Scenario.stocked)
     = {| status := 200;
          content := ItemBody (json_of_Item (set_id Scenario.gem (Some "10"))) |}
  /\ get_item "10" (snd (PUT_item "10" Scenario.gem Scenario.stocked))
     = (Return (set_id Scenario.gem (Some "10")),
        snd (PUT_item "10" Scenario.gem Scenario.stocked))
  /\ GET_item "10" (snd (PUT_item "10" Scenario.gem Scenario.stocked))
     = ({| status := 200;
           content := ItemBody (json_of_Item (set_id Scenario.gem (Some "10"))) |},
        snd (PUT_item "10" Scenario.gem Scenario.stocked))
  /\ price (json_of_Item (set_id Scenario.gem (Some "10"))) = None.
Proof.
  assert (Scenario.gadget10 ∈ Scenario.shelf) as Hin.
  { unfold Scenario.shelf. apply list_elem_of_further, list_elem_of_here. }
  split; [reflexivity|]. split; [exact Hin|]. split; [reflexivity|].
  split; [reflexivity|]. split; [reflexivity|].
  destruct (get_after_update Scenario.stocked Scenario.stocked Scenario.shelf
              "10" Scenario.gem Scenario.gadget10 eq_refl Hin eq_refl eq_refl
              eq_refl) as (H1 & H2 & H3 & _).
  split; [exact H1|]. split; [exact H2|]. split; [exact H3 | reflexivity].
Defined.

(** X10. A replacement and a patch never change which ids are stored, how
    many items there are, or their order: whatever the path id, the
    payload and the body, the file afterwards holds a list with the
    ids it held before, position by position. *)
Theorem update_and_patch_keep_ids (w : world) (data : list Item)
    (item_id : string) (item : Item) (item_update : ItemUpdate) :
  file w = Records data ->
  forallb validated data = true ->
  disk w = Writable ->
  exists l l',
    file (snd (update_item item_id item w)) = Records l
    /\ ids_of l = ids_of data
    /\ file (snd (patch_item item_id item_update w)) = Records l'
    /\ ids_of l' = ids_of data.
Proof.
  intros Hf Hv Hd.
  assert (read_data w = (Return data, w)) as Hread.
  { rewrite (read_data_Records _ _ Hf), Hv. reflexivity. }
  destruct (match_or_not data item_id) as [(idx & existing & Hm)|Hno].
  - exists (<[idx := set_id item (Some item_id)]> data),
           (<[idx := copy_update existing item_update]> data).
    rewrite (update_item_Writable _ _ _ _ item _ _ Hread Hm Hd).
    rewrite (patch_item_Writable _ _ _ _ item_update _ _ Hread Hm Hd).
    destruct Hm as (Hl & Hid & _).
    repeat split; try reflexivity;
      apply (ids_of_insert _ _ existing); try exact Hl.
    + cbn. symmetry. exact Hid.
    + reflexivity.
  - exists data, data.
    rewrite (update_item_not_found _ _ _ Hread _ item Hno).
    rewrite (patch_item_not_found _ _ _ Hread _ item_update Hno).
    auto.
Qed.

Lemma update_and_patch_keep_ids_witness :
  file Scenario.stocked = Records Scenario.shelf
  /\ forallb validated Scenario.shelf = true
  /\ disk Scenario.stocked = Writable
  /\ exists l l',
       file (snd (update_item "10" Scenario.widget Scenario.stocked)) = Records l
       /\ ids_of l = ids_of Scenario.shelf
       /\ file (snd (patch_item "10" Scenario.null_name Scenario.stocked))
          = Records l'
       /\ ids_of l' = ids_of Scenario.shelf.
Proof.
  split; [reflexivity|]. split; [reflexivity|]. split; [reflexivity|].
  exact (update_and_patch_keep_ids Scenario.stocked Scenario.shelf "10"
           Scenario.widget Scenario.null_name eq_refl eq_refl eq_refl).
Defined.

(** X11. A patch of a stored item damages the file exactly when its
    body supplies [null] for [name], [price] or [quantity].  On a
    medium that takes the write the patch answers 200 with the patched
    item and the patched list is in the file either way, since the copy
    is validated neither when it is made nor when it is sent; with such
    a body the next read fails in validation and every later listing
    answers 500; with any other body the next read gives the patched
    list and the listing answers 200. *)
Theorem read_after_patch (w w1 : world) (data : list Item) (item_id : string)
    (e : Item) (item_update : ItemUpdate) :
  read_data w = (Return data, w1) ->
  e ∈ data -> id e = Some item_id ->
  disk w = Writable ->
  exists idx existing,
    first_match data item_id idx existing
    /\ let updated := copy_update existing item_update in
       let patched := <[idx := updated]> data in
       let w2 := snd (PATCH_item item_id item_update w) in
       fst (PATCH_item item_id item_update w)
       = {| status := 200; content := ItemBody (json_of_Item updated) |}
       /\ file w2 = Records patched
       /\ fst (read_data w2)
          = (if nulls_required item_update
             then Raise ValidationError else Return patched)
       /\ status (fst (GET_items w2))
          = (if nulls_required item_update then 500 else 200).
Proof.
  intros Hread He Hid Hd.
  destruct (first_match_of_elem _ _ _ He Hid) as (idx & existing & Hm).
  exists idx, existing. split; [exact Hm|]. cbn zeta.
  pose proof (read_data_validated _ _ _ Hread) as Hv.
  pose proof Hm as (Hl & _ & _).
  pose proof (validated_copy_update existing item_update
                (validated_of_lookup _ _ _ Hv Hl)) as Hc.
  set (updated := copy_update existing item_update) in *.
  pose proof (patch_item_Writable _ _ _ _ item_update _ _ Hread Hm Hd) as Hp.
  fold updated in Hp.
  assert (PATCH_item item_id item_update w
          = ({| status := 200; content := ItemBody (json_of_Item updated) |},
             stored (<[idx := updated]> data) w1)) as HP.
  { unfold PATCH_item, respond. rewrite Hp. reflexivity. }
  assert (forallb validated (<[idx := updated]> data)
          = negb (nulls_required item_update)) as Hall.
  { destruct (nulls_required item_update); cbn [negb] in *.
    - exact (invalid_insert _ _ _ _ Hl Hc).
    - exact (all_validated_insert _ _ _ Hv Hc). }
  rewrite HP. cbn [fst snd].
  split; [reflexivity|]. split; [reflexivity|]. split.
  - rewrite (read_data_Records _ (<[idx := updated]> data)) by reflexivity.
    rewrite Hall. destruct (nulls_required item_update); reflexivity.
  - rewrite (GET_items_Records _ (<[idx := updated]> data)) by reflexivity.
    rewrite Hall. destruct (nulls_required item_update); reflexivity.
Qed.

Lemma read_after_patch_witness :
  read_data Scenario.stocked = (Return Scenario.shelf, Scenario.stocked)
  /\ Scenario.gadget10 ∈ Scenario.shelf
  /\ id Scenario.gadget10 = Some "10"
  /\ disk Scenario.stocked = Writable
  /\ exists idx existing,
       first_match Scenario.shelf "10" idx existing
       /\ fst (PATCH_item "10" Scenario.null_name Scenario.stocked)
          = {| status := 200;
               content := ItemBody
                            (json_of_Item
                               (copy_update existing Scenario.null_name)) |}
       /\ file (snd (PATCH_item "10" Scenario.null_name Scenario.stocked))
          = Records (<[idx := copy_update existing Scenario.null_name]>
                       Scenario.shelf)
       /\ fst (read_data (snd (PATCH_item "10" Scenario.null_name Scenario.stocked)))
          = (if nulls_required Scenario.null_name
             then Raise ValidationError
             else Return (<[idx := copy_update existing Scenario.null_name]>
                            Scenario.shelf))
       /\ status (fst (GET_items
                         (snd (PATCH_item "10" Scenario.null_name Scenario.stocked))))
          = (if nulls_required Scenario.null_name then 500 else 200).
Proof.
  assert (Scenario.gadget10 ∈ Scenario.shelf) as Hin.
  { unfold Scenario.shelf. apply list_elem_of_further, list_elem_of_here. }
  split; [reflexivity|]. split; [exact Hin|]. split; [reflexivity|].
  split; [reflexivity|].
  exact (read_after_patch Scenario.stocked Scenario.stocked Scenario.shelf
           "10" Scenario.gadget10 Scenario.null_name eq_refl Hin eq_refl
           eq_refl).
Defined.

(** ** Deleting *)

Lemma elem_no_match (data : list Item) (item_id : string) (e : Item) :
  e ∈ data -> id e = Some item_id -> ~ no_match data item_id.
Proof.
  intros He Hid Hno. unfold no_match in Hno. rewrite Forall_forall in Hno.
  exact (Hno e He Hid).
Qed.

(** X12. A second deletion of the same id finds nothing: after a deletion
    that answered 204 on a medium that takes the write, the same request
    answers 404 and leaves the world as it is. *)
Theorem delete_twice (w w1 : world) (data : list Item) (item_id : string)
    (e : Item) :
  read_data w = (Return data, w1) ->
  e ∈ data -> id e = Some item_id ->
  disk w = Writable ->
  let w2 := snd (DELETE_item item_id w) in
  status (fst (DELETE_item item_id w)) = 204
  /\ DELETE_item item_id w2
     = ({| status := 404; content := DetailBody "Item not found" |}, w2).
Proof.
  intros Hread He Hid Hd w2.
  pose proof (DELETE_item_match _ _ _ _ Hread (elem_no_match _ _ _ He Hid)) as H.
  destruct (read_data_world _ _ _ Hread) as [_ Hd1]. rewrite Hd in Hd1.
  rewrite (write_data_Writable _ _ Hd1) in H. cbn [snd] in H.
  unfold w2. rewrite H. split; [reflexivity|]. cbn [snd].
  apply DELETE_item_no_match
    with (data := filter (fun item => id item <> Some item_id) data).
  - apply read_data_stored, all_validated_filter.
    exact (read_data_validated _ _ _ Hread).
  - apply filter_no_match.
Qed.

Lemma delete_twice_witness :
  read_data Scenario.stocked = (Return Scenario.shelf, Scenario.stocked)
  /\ Scenario.widget3 ∈ Scenario.shelf
  /\ id Scenario.widget3 = Some "3"
  /\ disk Scenario.stocked = Writable
  /\ status (fst (DELETE_item "3" Scenario.stocked)) = 204
  /\ DELETE_item "3" (snd (DELETE_item "3" Scenario.stocked))
     = ({| status := 404; content := DetailBody "Item not found" |},
        snd (DELETE_item "3" Scenario.stocked)).
Proof.
  assert (Scenario.widget3 ∈ Scenario.shelf) as Hin.
  { unfold Scenario.shelf. apply list_elem_of_here. }
  split; [reflexivity|]. split; [exact Hin|]. split; [reflexivity|].
  split; [reflexivity|].
  exact (delete_twice Scenario.stocked Scenario.stocked Scenario.shelf "3"
           Scenario.widget3 eq_refl Hin eq_refl eq_refl).
Defined.

Lemma id_elem_of_ids (data : list Item) (y : Item) :
  y ∈ data -> id y ∈ ids_of data.
Proof. intros H. unfold ids_of. apply list_elem_of_fmap_2, H. Qed.

Lemma filter_distinct (data : list Item) (item_id : string) (idx : nat)
    (e : Item) :
  NoDup (ids_of data) -> data !! idx = Some e -> id e = Some item_id ->
  filter (fun item => id item <> Some item_id) data = delete idx data.
Proof.
  revert idx. induction data as [|x l IH]; intros idx Hnd Hl Hid.
  - discriminate.
  - unfold ids_of in Hnd. rewrite fmap_cons in Hnd.
    apply NoDup_cons in Hnd as [Hx Hnd]. destruct idx as [|i]; cbn in Hl.
    + injection Hl as ->. rewrite filter_cons_False by (intros Hn; exact (Hn Hid)).
      cbn. apply filter_no_match_all. apply Forall_forall. intros y Hy Hy'.
      apply Hx. rewrite Hid, <- Hy'. apply id_elem_of_ids, Hy.
    + assert (id x <> Some item_id) as Hne.
      { intros E. apply Hx. rewrite E, <- Hid.
        apply id_elem_of_ids. eapply list_elem_of_lookup_2, Hl. }
      rewrite filter_cons_True by exact Hne. cbn.
      rewrite (IH i Hnd Hl Hid). reflexivity.
Qed.

(** X13. With pairwise different ids a deletion takes out one item, the one
    at the position of the id, and keeps the ids pairwise different. *)
Theorem delete_item_removes_one (w w1 : world) (data : list Item)
    (item_id : string) (idx : nat) (e : Item) :
  read_data w = (Return data, w1) ->
  NoDup (ids_of data) ->
  data !! idx = Some e -> id e = Some item_id ->
  delete_item item_id w = (Return tt, snd (write_data (delete idx data) w1))
  /\ (length (delete idx data) + 1 = length data)%nat
  /\ NoDup (ids_of (delete idx data)).
Proof.
  intros Hread Hnd Hl Hid.
  pose proof (filter_distinct _ _ _ _ Hnd Hl Hid) as Hf.
  assert (length (delete idx data) + 1 = length data)%nat as Hlen.
  { rewrite length_delete by (rewrite Hl; eauto).
    apply lookup_lt_Some in Hl. lia. }
  split; [|split; [exact Hlen|]].
  - rewrite (delete_item_eq _ _ _ Hread item_id). cbn zeta. rewrite Hf.
    destruct (_ =? _)%nat eqn:E; [apply Nat.eqb_eq in E; lia | reflexivity].
  - rewrite <- Hf. unfold ids_of. eapply sublist_NoDup; [exact Hnd|].
    apply fmap_sublist, sublist_filter.
Qed.

Lemma delete_item_removes_one_witness :
  read_data Scenario.stocked = (Return Scenario.shelf, Scenario.stocked)
  /\ NoDup (ids_of Scenario.shelf)
  /\ Scenario.shelf !! 1%nat = Some Scenario.gadget10
  /\ id Scenario.gadget10 = Some "10"
  /\ delete_item "10" Scenario.stocked
     = (Return tt,
        snd (write_data (delete 1%nat Scenario.shelf) Scenario.stocked))
  /\ (length (delete 1%nat Scenario.shelf) + 1 = length Scenario.shelf)%nat
  /\ NoDup (ids_of (delete 1%nat Scenario.shelf)).
Proof.
  split; [reflexivity|]. split; [exact shelf_ids_distinct|].
  split; [reflexivity|]. split; [reflexivity|].
  exact (delete_item_removes_one Scenario.stocked Scenario.stocked
           Scenario.shelf "10" 1%nat Scenario.gadget10 eq_refl
           shelf_ids_distinct eq_refl eq_refl).
Defined.

(** ** The id of the path *)

Lemma respond_Return_status {A} (status_code : Z)
    (response_model : A -> body) (handler : py A) (w w' : world) (a : A) :
  handler w = (Return a, w') ->
  status (fst (respond status_code response_model handler w)) = status_code.
Proof. intros H. unfold respond. rewrite H. reflexivity. Qed.

Lemma respond_not_found {A} (status_code : Z)
    (response_model : A -> body) (handler : py A) (w w' : world) :
  handler w = (Raise (HTTPException 404 "Item not found"), w') ->
  respond status_code response_model handler w
  = ({| status := 404; content := DetailBody "Item not found" |}, w').
Proof. intros H. unfold respond. rewrite H. reflexivity. Qed.

(** X14. The four routes with an id in the path agree on which ids exist:
    each answers 404 exactly when no stored item has the id, although
    the deletion decides it by comparing lengths and the others by
    searching.  A lookup or a patch of an id that is not stored leaves
    the world as the read left it. *)
Theorem routes_agree_on_missing_id (w w1 : world) (data : list Item)
    (item_id : string) (item : Item) (item_update : ItemUpdate) :
  read_data w = (Return data, w1) ->
  (status (fst (GET_item item_id w)) = 404 <-> no_match data item_id)
  /\ (status (fst (PUT_item item_id item w)) = 404 <-> no_match data item_id)
  /\ (status (fst (PATCH_item item_id item_update w)) = 404
      <-> no_match data item_id)
  /\ (status (fst (DELETE_item item_id w)) = 404 <-> no_match data item_id)
  /\ (no_match data item_id ->
      snd (GET_item item_id w) = w1
      /\ snd (PATCH_item item_id item_update w) = w1).
Proof.
  intros Hread.
  destruct (match_or_not data item_id) as [(idx & existing & Hm)|Hno].
  - pose proof (first_match_excludes_no_match _ _ _ _ Hm) as Hsome.
    pose proof (respond_Return_status 200 as_Item _ _ _ _
                  (get_item_found _ _ _ Hread _ _ _ Hm)) as Hg.
    pose proof (respond_Return_status 200 as_Item _ _ _ _
                  (update_item_found _ _ _ Hread _ item _ _ Hm)) as Hu.
    pose proof (respond_Return_status 200 as_Item _ _ _ _
                  (patch_item_found _ _ _ Hread _ item_update _ _ Hm)) as Hp.
    pose proof (DELETE_item_match _ _ _ _ Hread Hsome) as Hdel.
    fold (GET_item item_id) in Hg. fold (PUT_item item_id item) in Hu.
    fold (PATCH_item item_id item_update) in Hp.
    repeat split; try contradiction; intros E.
    + rewrite Hg in E. discriminate.
    + rewrite Hu in E. discriminate.
    + rewrite Hp in E. discriminate.
    + rewrite Hdel in E. discriminate.
  - pose proof (respond_not_found 200 as_Item _ _ _
                  (get_item_not_found _ _ _ Hread _ Hno)) as Hg.
    pose proof (respond_not_found 200 as_Item _ _ _
                  (update_item_not_found _ _ _ Hread _ item Hno)) as Hu.
    pose proof (respond_not_found 200 as_Item _ _ _
                  (patch_item_not_found _ _ _ Hread _ item_update Hno)) as Hp.
    pose proof (DELETE_item_no_match _ _ _ _ Hread Hno) as Hdel.
    fold (GET_item item_id) in Hg. fold (PUT_item item_id item) in Hu.
    fold (PATCH_item item_id item_update) in Hp.
    rewrite Hg, Hu, Hp, Hdel. cbn [fst snd status]. tauto.
Qed.

Lemma routes_agree_on_missing_id_witness :
  read_data Scenario.stocked = (Return Scenario.shelf, Scenario.stocked)
  /\ (status (fst (GET_item "4" Scenario.stocked)) = 404
      <-> no_match Scenario.shelf "4")
  /\ (status (fst (PUT_item "4" Scenario.widget Scenario.stocked)) = 404
      <-> no_match Scenario.shelf "4")
  /\ (status (fst (PATCH_item "4" Scenario.null_name Scenario.stocked)) = 404
      <-> no_match Scenario.shelf "4")
  /\ (status (fst (DELETE_item "4" Scenario.stocked)) = 404
      <-> no_match Scenario.shelf "4")
  /\ status (fst (DELETE_item "4" Scenario.stocked)) = 404.
Proof.
  split; [reflexivity|].
  pose proof (routes_agree_on_missing_id Scenario.stocked Scenario.stocked
                Scenario.shelf "4" Scenario.widget Scenario.null_name eq_refl)
    as (Hg & Hu & Hp & Hd & _).
  repeat split; try apply Hg; try apply Hu; try apply Hp; try apply Hd.
Defined.

(** ** An invariant of the file *)

Lemma tidy_nil : tidy [].
Proof. split; [constructor | eexists; reflexivity]. Qed.

Lemma tidy_snoc (data : list Item) (ns : list Z) (item : Item) :
  tidy data -> id_numbers data = Some ns ->
  tidy (data ++ [set_id item (Some (Py.str (Py.max ns 0 + 1)))]).
Proof.
  intros [Hnd _] Hns. split.
  - eapply ids_distinct_snoc;
      [exact Hnd | apply next_id_fresh, Hns | reflexivity].
  - erewrite id_numbers_snoc; [eexists; reflexivity | exact Hns |].
    apply id_number_set_id.
Qed.

Lemma tidy_insert (data : list Item) (idx : nat) (existing x : Item) :
  tidy data -> data !! idx = Some existing -> id x = id existing ->
  tidy (<[idx := x]> data).
Proof.
  intros [Hnd Hnum] Hl Hx. split.
  - rewrite (ids_of_insert _ _ _ _ Hl Hx). exact Hnd.
  - unfold id_numbers in *. rewrite mapM_is_Some in Hnum |- *.
    apply Forall_insert; [exact Hnum|].
    pose proof (Forall_lookup_1 _ _ _ _ Hnum Hl) as He.
    unfold compose, id_number in *. rewrite Hx. exact He.
Qed.

Lemma tidy_filter (P : Item -> Prop) `{forall x, Decision (P x)}
    (data : list Item) :
  tidy data -> tidy (filter P data).
Proof.
  intros [Hnd Hnum]. split.
  - unfold ids_of. eapply sublist_NoDup; [exact Hnd|].
    apply fmap_sublist, sublist_filter.
  - unfold id_numbers in *. rewrite mapM_is_Some in Hnum |- *.
    rewrite Forall_forall in Hnum |- *. intros x Hx.
    apply list_elem_of_filter in Hx as [_ Hx]. auto.
Qed.

Lemma write_keeps_tidy (l : list Item) (w : world) :
  file_tidy w -> tidy l -> file_tidy (snd (write_data l w)).
Proof.
  intros Hw Hl. destruct (disk w) as [|e|e d] eqn:Hd.
  - rewrite (write_data_Writable _ _ Hd). exact Hl.
  - rewrite (write_data_ReadOnly _ _ _ Hd). exact Hw.
  - assert (file (snd (write_data l w)) = Malformed d) as Hf.
    { run. repeat (rewrite Hd; cbv beta iota). reflexivity. }
    unfold file_tidy. rewrite Hf. exact I.
Qed.

Lemma read_keeps_tidy (w w1 : world) (o : outcome (list Item)) :
  read_data w = (o, w1) -> file_tidy w ->
  file_tidy w1 /\ forall data, o = Return data -> tidy data.
Proof.
  intros Hr Hw. destruct (read_data_world _ _ _ Hr) as [Hf _]. split.
  - unfold file_tidy in *. rewrite Hf. exact Hw.
  - intros data ->. unfold file_tidy in Hw.
    destruct (file w) as [|e|e|docs|e|docs] eqn:Hfw.
    + rewrite (read_data_Missing _ Hfw) in Hr. injection Hr as <- _.
      apply tidy_nil.
    + rewrite (read_data_Unreadable _ _ Hfw) in Hr. injection Hr as <- _.
      apply tidy_nil.
    + rewrite (read_data_Malformed _ _ Hfw) in Hr. injection Hr as <- _.
      apply tidy_nil.
    + rewrite (read_data_Records _ _ Hfw) in Hr.
      destruct (forallb validated docs); [|discriminate].
      injection Hr as <- _. exact Hw.
    + rewrite (read_data_Undecodable _ _ Hfw) in Hr. discriminate.
    + rewrite (read_data_Misshapen _ _ Hfw) in Hr.
      destruct (forallb validated docs); discriminate.
Qed.

(** X15. Distinct numeric ids are an invariant of the file under the four
    modifying handlers: when the file, if it holds a collection, holds
    one whose ids are pairwise different and all read as integers, the
    same is true after a creation, a replacement, a patch and a
    deletion, in every world, whether the write works, is refused or
    breaks off. *)
Theorem handlers_keep_ids_tidy (w : world) (item_id : string) (item : Item)
    (item_update : ItemUpdate) :
  file_tidy w ->
  file_tidy (snd (create_item item w))
  /\ file_tidy (snd (update_item item_id item w))
  /\ file_tidy (snd (patch_item item_id item_update w))
  /\ file_tidy (snd (delete_item item_id w)).
Proof.
  intros Hw. destruct (read_data w) as [o w1] eqn:Hr.
  destruct (read_keeps_tidy _ _ _ Hr Hw) as [Hw1 Ho].
  destruct o as [data|x].
  - specialize (Ho data eq_refl). pose proof Ho as [_ [ns Hns]].
    split; [|split; [|split]].
    + pose proof (create_item_numbered _ _ _ Hr item _ Hns) as Hc.
      cbn zeta in Hc. rewrite Hc.
      apply write_keeps_tidy; [exact Hw1 | apply tidy_snoc; assumption].
    + destruct (match_or_not data item_id) as [(idx & existing & Hm)|Hno].
      * pose proof (update_item_found _ _ _ Hr _ item _ _ Hm) as Hu.
        cbn zeta in Hu. rewrite Hu. destruct Hm as (Hl & Hid & _).
        apply write_keeps_tidy; [exact Hw1|].
        apply (tidy_insert _ _ existing); [exact Ho | exact Hl |].
        cbn. symmetry. exact Hid.
      * rewrite (update_item_not_found _ _ _ Hr _ item Hno). exact Hw1.
    + destruct (match_or_not data item_id) as [(idx & existing & Hm)|Hno].
      * pose proof (patch_item_found _ _ _ Hr _ item_update _ _ Hm) as Hp.
        cbn zeta in Hp. rewrite Hp. destruct Hm as (Hl & _ & _).
        apply write_keeps_tidy; [exact Hw1|].
        apply (tidy_insert _ _ existing); [exact Ho | exact Hl | reflexivity].
      * rewrite (patch_item_not_found _ _ _ Hr _ item_update Hno). exact Hw1.
    + rewrite (delete_item_eq _ _ _ Hr item_id). cbn zeta.
      destruct (_ =? _)%nat; [exact Hw1|].
      apply write_keeps_tidy; [exact Hw1 | apply tidy_filter, Ho].
  - unfold create_item, update_item, patch_item, delete_item.
    rewrite !(bind_Raise _ _ _ _ _ Hr). auto.
Qed.

Lemma stocked_tidy : file_tidy Scenario.stocked.
Proof. split; [exact shelf_ids_distinct | eexists; reflexivity]. Qed.

Lemma handlers_keep_ids_tidy_witness :
  file_tidy Scenario.stocked
  /\ file_tidy (snd (create_item Scenario.widget Scenario.stocked))
  /\ file_tidy (snd (update_item "10" Scenario.widget Scenario.stocked))
  /\ file_tidy (snd (patch_item "10" Scenario.null_name Scenario.stocked))
  /\ file_tidy (snd (delete_item "10" Scenario.stocked)).
Proof.
  split; [exact stocked_tidy|].
  exact (handlers_keep_ids_tidy Scenario.stocked "10" Scenario.widget
           Scenario.null_name stocked_tidy).
Defined.

(** ** A patch that keeps the required values *)

Lemma copy_update_twice (existing : Item) (item_update : ItemUpdate) :
  copy_update (copy_update existing item_update) item_update
  = copy_update existing item_update.
Proof.
  unfold copy_update. cbn.
  destruct (upd_name item_update), (upd_description item_update),
           (upd_price item_update), (upd_quantity item_update); reflexivity.
Qed.

(** X16. After a patch of a stored item whose body supplies no [null]
    for a required field, on a medium that takes the write, a lookup of
    the id finds the patched item and answers 200 with the same body as
    the patch, and the same patch once more gives the same response and
    leaves the world as it is.  The body is the patched item when its
    price is a finite number; a price that is not is sent as [null]. *)
Theorem patch_item_settles (w w1 : world) (data : list Item)
    (item_id : string) (e : Item) (item_update : ItemUpdate) :
  read_data w = (Return data, w1) ->
  e ∈ data -> id e = Some item_id ->
  disk w = Writable ->
  nulls_required item_update = false ->
  let w2 := snd (PATCH_item item_id item_update w) in
  exists updated,
    fst (PATCH_item item_id item_update w)
    = {| status := 200; content := ItemBody (json_of_Item updated) |}
    /\ get_item item_id w2 = (Return updated, w2)
    /\ GET_item item_id w2
       = ({| status := 200; content := ItemBody (json_of_Item updated) |}, w2)
    /\ PATCH_item item_id item_update w2
       = ({| status := 200; content := ItemBody (json_of_Item updated) |}, w2)
    /\ (finite (price updated) -> json_of_Item updated = updated).
Proof.
  intros Hread He Hid Hd Hnull w2.
  destruct (first_match_of_elem _ _ _ He Hid) as (idx & existing & Hm).
  pose proof (read_data_validated _ _ _ Hread) as Hv.
  pose proof Hm as (Hl & Hide & _).
  pose proof (validated_copy_update existing item_update
                (validated_of_lookup _ _ _ Hv Hl)) as Hc.
  rewrite Hnull in Hc. cbn [negb] in Hc.
  set (updated := copy_update existing item_update) in *.
  pose proof (patch_item_Writable _ _ _ _ item_update _ _ Hread Hm Hd) as Hp.
  fold updated in Hp.
  assert (PATCH_item item_id item_update w
          = ({| status := 200; content := ItemBody (json_of_Item updated) |},
             stored (<[idx := updated]> data) w1)) as HP.
  { unfold PATCH_item, respond. rewrite Hp. reflexivity. }
  assert (w2 = stored (<[idx := updated]> data) w1) as E2.
  { unfold w2. rewrite HP. reflexivity. }
  assert (read_data w2 = (Return (<[idx := updated]> data), w2)) as Hback.
  { rewrite E2. apply read_data_stored, all_validated_insert; assumption. }
  assert (first_match (<[idx := updated]> data) item_id idx updated) as Hm2.
  { apply first_match_insert with (existing := existing); [exact Hm|].
    exact Hide. }
  pose proof (get_item_found _ _ _ Hback _ _ _ Hm2) as Hg.
  exists updated. split; [rewrite HP; reflexivity|].
  split; [exact Hg|]. split; [|split].
  - unfold GET_item, respond. rewrite Hg. reflexivity.
  - assert (disk w2 = Writable) as Hd2.
    { rewrite E2. destruct (read_data_world _ _ _ Hread) as [_ Hd1].
      cbn. congruence. }
    unfold PATCH_item, respond.
    rewrite (patch_item_Writable _ _ _ _ item_update _ _ Hback Hm2 Hd2).
    unfold updated at 1 2. rewrite copy_update_twice. fold updated.
    rewrite list_insert_insert_eq. rewrite E2. reflexivity.
  - intros Hfin. destruct updated as [i n d pr q]. unfold json_of_Item.
    cbn in *. unfold finite in Hfin. rewrite Hfin. reflexivity.
Qed.

Lemma patch_item_settles_witness :
  read_data Scenario.stocked = (Return Scenario.shelf, Scenario.stocked)
  /\ Scenario.gadget10 ∈ Scenario.shelf
  /\ id Scenario.gadget10 = Some "10"
  /\ disk Scenario.stocked = Writable
  /\ nulls_required (only_quantity (Some 5)) = false
  /\ exists updated,
       fst (PATCH_item "10" (only_quantity (Some 5)) Scenario.stocked)
       = {| status := 200; content := ItemBody (json_of_Item updated) |}
       /\ get_item "10"
            (snd (PATCH_item "10" (only_quantity (Some 5)) Scenario.stocked))
          = (Return updated,
             snd (PATCH_item "10" (only_quantity (Some 5)) Scenario.stocked))
       /\ GET_item "10"
            (snd (PATCH_item "10" (only_quantity (Some 5)) Scenario.stocked))
          = ({| status := 200; content := ItemBody (json_of_Item updated) |},
             snd (PATCH_item "10" (only_quantity (Some 5)) Scenario.stocked))
       /\ PATCH_item "10" (only_quantity (Some 5))
            (snd (PATCH_item "10" (only_quantity (Some 5)) Scenario.stocked))
          = ({| status := 200; content := ItemBody (json_of_Item updated) |},
             snd (PATCH_item "10" (only_quantity (Some 5)) Scenario.stocked)).
Proof.
  assert (Scenario.gadget10 ∈ Scenario.shelf) as Hin.
  { unfold Scenario.shelf. apply list_elem_of_further, list_elem_of_here. }
  split; [reflexivity|]. split; [exact Hin|]. split; [reflexivity|].
  split; [reflexivity|]. split; [reflexivity|].
  destruct (patch_item_settles Scenario.stocked Scenario.stocked Scenario.shelf
              "10" Scenario.gadget10 (only_quantity (Some 5)) eq_refl Hin
              eq_refl eq_refl eq_refl) as (updated & H1 & H2 & H3 & H4 & _).
  exists updated. repeat (split; [assumption|]). exact H4.
Defined.

(** ** Diagnostics *)

Lemma snoc_not_same {A} (l : list A) (x : A) : (l ++ [x])%list <> l.
Proof.
  intros E. apply (f_equal length) in E. rewrite length_app in E.
  cbn in E. lia.
Qed.

(** X17. The helpers print exactly when they swallow an error:
    [write_data] leaves standard output as it is exactly on a medium
    that takes the write, and [read_data] adds a line exactly when
    opening or reading the file fails with an I/O error or the text is
    not JSON.  The errors [read_data] lets through leave no line.  With
    the responses blind to the medium, the printed line is the only
    trace of a lost write. *)
Theorem diagnostics_tell_faults (data : list Item) (w : world) :
  (stdout (snd (write_data data w)) = stdout w <-> disk w = Writable)
  /\ (stdout (snd (read_data w)) <> stdout w
      <-> exists e, file w = Unreadable e \/ file w = Malformed e)
  /\ (forall x, fst (read_data w) = Raise x ->
      stdout (snd (read_data w)) = stdout w).
Proof.
  split; [|split].
  - destruct (disk w) as [|e|e d] eqn:Hd.
    + rewrite (write_data_Writable _ _ Hd). split; reflexivity.
    + rewrite (write_data_ReadOnly _ _ _ Hd). cbn.
      split; [intros E; destruct (snoc_not_same _ _ E) | discriminate].
    + assert (stdout (snd (write_data data w))
              = (stdout w ++ [write_error e])%list) as Hs.
      { run. repeat (rewrite Hd; cbv beta iota). reflexivity. }
      rewrite Hs.
      split; [intros E; destruct (snoc_not_same _ _ E) | discriminate].
  - destruct (file w) as [|e|e|docs|e|docs] eqn:Hf.
    + rewrite (read_data_Missing _ Hf). cbn. split; [congruence|].
      intros (e & [H|H]); discriminate.
    + rewrite (read_data_Unreadable _ _ Hf). cbn.
      split; [eauto | intros _; apply snoc_not_same].
    + rewrite (read_data_Malformed _ _ Hf). cbn.
      split; [eauto | intros _; apply snoc_not_same].
    + rewrite (read_data_Records _ _ Hf).
      split; [|intros (e & [H|H]); discriminate].
      intros H. destruct (forallb validated docs); cbn in H; congruence.
    + rewrite (read_data_Undecodable _ _ Hf). cbn. split; [congruence|].
      intros (e' & [H|H]); discriminate.
    + rewrite (read_data_Misshapen _ _ Hf).
      split; [|intros (e & [H|H]); discriminate].
      intros H. destruct (forallb validated docs); cbn in H; congruence.
  - intros x Hx. destruct (read_data w) as [o w1] eqn:Hr. cbn in Hx.
    subst o. destruct (read_data_raises _ _ _ Hr) as (-> & _). reflexivity.
Qed.
